(** * LTE link control (drivers/lte_link_control/lte_lc.c)

    A shallow embedding of the registration state machine
    ([w_lte_lc_connect]), of the notification listener ([at_handler]) and of
    the PSM timer read-out ([lte_lc_psm_get]), with the properties of the
    specification stated over it.

    C objects are modelled as follows.
    - [char] buffers are [list ascii] of the declared size; a C string ends at
      the first NUL byte.
    - [u32_t], [size_t] and [unsigned long] are 32 bits wide (the target is a
      32-bit Cortex-M); they are values of [Z] with the wrap-around written
      out by [to_u32]; [int] is the two's complement reading [to_int].
    - the modem, the kernel semaphore and the AT command library are the
      environment: their return codes are read from an oracle and every call
      is logged in a trace. *)

From Stdlib Require Import ZArith List Ascii String Bool Lia.
Import ListNotations.
Open Scope Z_scope.

(** ** errno.h

    The error numbers the driver returns, with the values of the C library
    of the target; the properties below use the names only. *)

Module Errno.
Definition EIO : Z := 5.
Definition EAGAIN : Z := 11.
Definition ENOMEM : Z := 12.
Definition EBUSY : Z := 16.
Definition EINVAL : Z := 22.
Definition ETIMEDOUT : Z := 60.
End Errno.
Import Errno.

(** ** Machine integers *)

Definition ULONG_MAX : Z := 4294967295.

(** Conversion to a 32-bit unsigned type. *)
Definition to_u32 (z : Z) : Z := z mod 2 ^ 32.

(** Conversion of a 32-bit pattern to [int]. *)
Definition to_int (z : Z) : Z :=
  let w := to_u32 z in if w <? 2 ^ 31 then w else w - 2 ^ 32.

(** ** libc: the functions of string.h and stdlib.h the driver calls

    These are the C library's, modelled after ISO C (7.22.1.4 for strtoul,
    7.24 for memcpy and memcmp). *)

Definition NUL : ascii := "000"%char.

Definition code (c : ascii) : Z := Z.of_N (N_of_ascii c).

Definition isspace (c : ascii) : bool :=
  (code c =? 32) || ((9 <=? code c) && (code c <=? 13)).

(** [memcpy dst src n]: the first [n] bytes of [dst] become those of [src]. *)
Definition memcpy (dst src : list ascii) (n : nat) : list ascii :=
  firstn n src ++ skipn n dst.

(** [memcmp a b n == 0]. *)
Definition memcmp_eq (a b : list ascii) (n : nat) : bool :=
  if list_eq_dec ascii_dec (firstn n a) (firstn n b) then true else false.

(** Value of a digit character, as strtoul reads it in any base. *)
Definition digit_value (c : ascii) : option Z :=
  let n := code c in
  if (48 <=? n) && (n <=? 57) then Some (n - 48)
  else if (65 <=? n) && (n <=? 90) then Some (n - 65 + 10)
  else if (97 <=? n) && (n <=? 122) then Some (n - 97 + 10)
  else None.

Fixpoint skip_space (s : list ascii) : list ascii :=
  match s with
  | c :: r => if isspace c then skip_space r else s
  | [] => []
  end.

(** The digit loop of strtoul: stops at the first character that is not a
    digit of the base (the terminating NUL is one); once the value would
    exceed [ULONG_MAX] the overflow flag stays set. *)
Fixpoint strtoul_digits (base : Z) (s : list ascii) (acc : Z) (ovf : bool)
  : Z * bool :=
  match s with
  | [] => (acc, ovf)
  | c :: r =>
      match digit_value c with
      | None => (acc, ovf)
      | Some d =>
          if base <=? d then (acc, ovf)
          else
            let cutoff := ULONG_MAX / base in
            let cutlim := ULONG_MAX mod base in
            if ovf || (cutoff <? acc) || ((acc =? cutoff) && (cutlim <? d))
            then strtoul_digits base r acc true
            else strtoul_digits base r (acc * base + d) false
      end
  end.

(** [strtoul nptr NULL base] for [2 <= base <= 36], [base <> 16]: leading
    white space, an optional sign, then the digits; no digit at all gives 0,
    overflow gives [ULONG_MAX], a minus sign negates in the unsigned type. *)
Definition strtoul (nptr : list ascii) (base : Z) : Z :=
  let s := skip_space nptr in
  let neg :=
    match s with
    | c :: _ => (c =? "-")%char
    | [] => false
    end in
  let s :=
    match s with
    | c :: r => if (c =? "-")%char || (c =? "+")%char then r else s
    | [] => s
    end in
  let '(acc, ovf) := strtoul_digits base s 0 false in
  if ovf then ULONG_MAX else if neg then to_u32 (- acc) else acc.

(** ** at_cmd_parser/at_params.h *)

(** Modelled from the spec: the parameter list of the AT command parser
    ([struct at_param_list], at_cmd_parser/at_params.h), whose implementation
    is not part of the driver. A parsed line is a sequence of tokens: the
    identifier and the quoted fields are string tokens, the numeric fields are
    integer tokens, an omitted field is empty. *)
Inductive at_param : Type :=
| AT_PARAM_EMPTY
| AT_PARAM_NUM_SHORT (v : Z)
| AT_PARAM_NUM_INT (v : Z)
| AT_PARAM_STRING (s : string).

Definition at_param_list : Type := list at_param.

(** Modelled from the spec: [at_params_string_get params index value len]
    (body not part of the driver). The token at [index] must be a string
    token that fits in the [len] bytes available; it is then copied to
    [value] without a terminating NUL and [len] becomes its length. On
    failure [value] and [len] are left as they were. *)
Definition at_params_string_get (params : at_param_list) (index : nat)
    (value : list ascii) (len : nat) : Z * list ascii * nat :=
  match nth_error params index with
  | Some (AT_PARAM_STRING s) =>
      let str := list_ascii_of_string s in
      if (len <? List.length str)%nat then (- ENOMEM, value, len)
      else (0, memcpy value str (List.length str), List.length str)
  | _ => (- EINVAL, value, len)
  end.

(** Modelled from the spec: [at_params_int_get params index value] (body not
    part of the driver). The token at [index] must be an integer token; its
    value is stored to the [u32_t] output. [None] is the error return, which
    leaves the output as it was. *)
Definition at_params_int_get (params : at_param_list) (index : nat)
  : option Z :=
  match nth_error params index with
  | Some (AT_PARAM_NUM_SHORT v) => Some (to_u32 v)
  | Some (AT_PARAM_NUM_INT v) => Some (to_u32 v)
  | _ => None
  end.

(** ** lte_lc.c: constants and tables *)

Definition AT_CEREG_ACTIVE_TIME_INDEX : nat := 8.
Definition AT_CEREG_TAU_INDEX : nat := 9.

(** Lookup table for the T3324 timer (PSM active time), in seconds. *)
Definition t3324_lookup : list Z := [2; 60; 600; 60; 60; 60; 60; 0].

(** Lookup table for the T3412 timer (periodic TAU), in seconds. *)
Definition t3412_lookup : list Z := [600; 3600; 36000; 2; 30; 60; 1152000; 0].

(** [ARRAY_SIZE]. *)
Definition ARRAY_SIZE (a : list Z) : Z := Z.of_nat (List.length a).

(** ** lte_lc_psm_get *)

(** The statements that turn the timer string into seconds; the function has
    them twice, over [t3412_lookup] (lines 372-383) and over [t3324_lookup]
    (lines 395-406):
<<
      memcpy(unit_str, timer_str, unit_str_len);
      index = strtoul(unit_str, NULL, 2);
      if (index > (ARRAY_SIZE(lookup) - 1)) { err = -EINVAL; goto exit; }
      timer_unit = lookup[index];
      timer_value = strtoul(timer_str + unit_str_len, NULL, 2);
      *out = timer_unit ? timer_unit * timer_value : -1;
>>
    The result is the new content of [unit_str] and either the error code
    ([inl]) or the value stored to the output ([inr]). *)
Definition decode_timer (lookup : list Z) (timer_str unit_str : list ascii)
    (unit_str_len : nat) : list ascii * (Z + Z) :=
  let unit_str := memcpy unit_str timer_str unit_str_len in
  let index := strtoul unit_str 2 in
  if index >? ARRAY_SIZE lookup - 1 then (unit_str, inl (- EINVAL))
  else
    let timer_unit := nth (Z.to_nat index) lookup 0 in
    let timer_value := strtoul (skipn unit_str_len timer_str) 2 in
    (unit_str,
     inr (if timer_unit =? 0 then to_int (-1)
          else to_int (to_u32 (timer_unit * timer_value)))).

(** Modelled from the spec: what the command channel and the AT parser
    (neither is part of the driver) answer to the calls of
    [lte_lc_psm_get]: the return codes of the two [at_cmd_write] calls, of
    [at_params_list_init] and of [at_parser_max_params_from_str], and the
    tokens that the parser left in [at_resp_list] for the comma-delimited
    reply (at most [AT_CEREG_PARAMS_COUNT] = 10 of them). *)
Record cereg_reply : Type := {
  cereg_5_err : Z;
  cereg_read_err : Z;
  list_init_err : Z;
  parser_err : Z;
  at_resp_list : at_param_list
}.

(** The outcome of a call: the return value and the two [int] objects the
    arguments point to. *)
Record psm_result : Type := {
  psm_ret : Z;
  psm_tau : option Z;
  psm_active_time : option Z
}.

(** [lte_lc_psm_get tau active_time]; an argument is [None] for a NULL
    pointer and [Some v] for a pointer to an [int] that holds [v]. *)
Definition lte_lc_psm_get (io : cereg_reply) (tau active_time : option Z)
  : psm_result :=
  let timer_str := repeat NUL 9 in
  let unit_str := repeat NUL 4 in
  let timer_str_len := (9 - 1)%nat in
  let unit_str_len := (4 - 1)%nat in
  match tau, active_time with
  | Some _, Some _ =>
    if negb (cereg_5_err io =? 0) then
      Build_psm_result (cereg_5_err io) tau active_time
    else if negb (cereg_read_err io =? 0) then
      Build_psm_result (cereg_read_err io) tau active_time
    else if negb (list_init_err io =? 0) then
      Build_psm_result (list_init_err io) tau active_time
    else if negb (parser_err io =? 0) then
      Build_psm_result (parser_err io) tau active_time
    else
      (* Parse periodic TAU string *)
      let '(err, timer_str, timer_str_len) :=
        at_params_string_get (at_resp_list io) AT_CEREG_TAU_INDEX
                             timer_str timer_str_len in
      if negb (err =? 0) then Build_psm_result err tau active_time
      else
        match decode_timer t3412_lookup timer_str unit_str unit_str_len with
        | (_, inl err) => Build_psm_result err tau active_time
        | (unit_str, inr v) =>
          let tau := Some v in
          (* Parse active time string *)
          let '(err, timer_str, timer_str_len) :=
            at_params_string_get (at_resp_list io) AT_CEREG_ACTIVE_TIME_INDEX
                                 timer_str timer_str_len in
          if negb (err =? 0) then Build_psm_result err tau active_time
          else
            match decode_timer t3324_lookup timer_str unit_str unit_str_len
            with
            | (_, inl err) => Build_psm_result err tau active_time
            | (_, inr v) => Build_psm_result err tau (Some v)
            end
        end
  | _, _ => Build_psm_result (- EINVAL) tau active_time
  end.

(** The 8-character field of a registration-status reply that encodes unit
    selector [u] and magnitude [m]: [n] binary digits of [v], most
    significant first. *)
Fixpoint bits (n : nat) (v : Z) : list ascii :=
  match n with
  | O => []
  | S k => (if (v / 2 ^ Z.of_nat k) mod 2 =? 1 then "1"%char else "0"%char)
           :: bits k v
  end.

Definition timer_field (u m : Z) : string :=
  string_of_list_ascii (bits 3 u ++ bits 5 m).

(** A reply whose commands and parser all succeed, with the given tokens. *)
Definition reply_ok (l : at_param_list) : cereg_reply :=
  {| cereg_5_err := 0; cereg_read_err := 0; list_init_err := 0;
     parser_err := 0; at_resp_list := l |}.

Definition cereg_tokens (act tau : string) : at_param_list :=
  [AT_PARAM_STRING "+CEREG"; AT_PARAM_NUM_SHORT 5; AT_PARAM_NUM_SHORT 1;
   AT_PARAM_STRING "76C1"; AT_PARAM_STRING "0102DA04"; AT_PARAM_NUM_SHORT 7;
   AT_PARAM_EMPTY; AT_PARAM_EMPTY; AT_PARAM_STRING act; AT_PARAM_STRING tau].

(** ** kernel.h: the counting semaphore [link]

    The semaphore is the kernel's; it is modelled after the documentation
    of [k_sem_init], [k_sem_give] and [k_sem_take]. *)

(** A semaphore: its count, its limit, and whether the thread that called
    [k_sem_take] is pended on its wait queue. *)
Record k_sem : Type := {
  count : Z;
  limit : Z;
  pended : bool
}.

Definition k_sem_init (initial_count lim : Z) : k_sem :=
  {| count := initial_count; limit := lim; pended := false |}.

(** [k_sem_give]: a pended thread is made ready with return value 0;
    without one the count goes up, but not above the limit. *)
Definition k_sem_give (sem : k_sem) : k_sem :=
  if pended sem then
    {| count := count sem; limit := limit sem; pended := false |}
  else
    {| count := count sem + (if negb (count sem =? limit sem) then 1 else 0);
       limit := limit sem; pended := false |}.

Definition K_NO_WAIT : Z := 0.

(** [K_SECONDS(s)] is [(s) * MSEC_PER_SEC] with [MSEC_PER_SEC] the unsigned
    constant [1000U]: the product is taken in 32 bits and reaches
    [k_sem_take] as its signed 32-bit timeout in milliseconds. The result
    is even, so it is never [K_FOREVER] (-1); it is [K_NO_WAIT] when the
    product wraps to 0. *)
Definition K_SECONDS (s : Z) : Z := to_int (to_u32 (s * 1000)).

(** ** at_handler *)

(** Modelled from the spec: an unsolicited line as [at_handler] meets it.
    [at_parser_params_from_str] (not part of the driver) leaves its tokens in
    [params]: the identifier token, then the parameters. The record also
    holds the indeterminate values that the uninitialised locals [id]
    (16 bytes) and [val] have when the handler is entered. *)
Record notification : Type := {
  urc_params : at_param_list;
  stack_id : list ascii;
  stack_val : Z
}.

Definition at_handler (response : notification) (link : k_sem) : k_sem :=
  let id := stack_id response in
  let val := stack_val response in
  let len := 16%nat in
  let params := urc_params response in
  let '(_, id, len) := at_params_string_get params 0 id len in
  if (0 <? len)%nat && memcmp_eq id (list_ascii_of_string "+CEREG") 6 then
    let val :=
      match at_params_int_get params 1 with
      | Some v => v
      | None => val
      end in
    if (val =? 1) || (val =? 5) then k_sem_give link else link
  else link.

(** ** w_lte_lc_connect *)

(** The command strings handed to [at_cmd_write]; [current_network_mode]
    points to one of the first two and is compared by address. *)
Inductive at_cmd : Type :=
| nw_mode_preferred
| nw_mode_fallback
| normal
| offline.

Definition at_cmd_eqb (a b : at_cmd) : bool :=
  match a, b with
  | nw_mode_preferred, nw_mode_preferred
  | nw_mode_fallback, nw_mode_fallback
  | normal, normal
  | offline, offline => true
  | _, _ => false
  end.

(** The functions that can be installed as notification handler
    ([at_cmd_handler_t] is a function pointer). *)
Inductive at_cmd_handler_t : Type :=
| fn_at_handler.

(** What the driver does to its environment, in order. *)
Inductive event : Type :=
| Ev_write (cmd : at_cmd) (ret : Z)
| Ev_take (ret : Z).

Record modem : Type := {
  link : k_sem;
  notification_handler : option at_cmd_handler_t;
  trace : list event
}.

(** The configuration (Kconfig). *)
Record config : Type := {
  CONFIG_LTE_NETWORK_USE_FALLBACK : bool;
  CONFIG_LTE_NETWORK_TIMEOUT : Z
}.

(** Modelled from the spec: the modem command channel (the AT command
    library, not part of the driver). It sends a command string and reports
    0 or an error, and it hands unsolicited lines to the one handler that is
    registered. The environment fixes the return code of the call that is
    the [i]-th entry of the trace when it is an [at_cmd_write], and the
    unsolicited lines that the modem delivers while the [i]-th call is in
    progress. *)
Record environment : Type := {
  at_cmd_result : nat -> Z;
  unsolicited : nat -> list notification
}.

(** A computation over the modem state. *)
Definition M (A : Type) : Type := modem -> A * modem.

Definition ret {A : Type} (a : A) : M A := fun w => (a, w).

Definition bind {A B : Type} (m : M A) (k : A -> M B) : M B :=
  fun w => let '(a, w') := m w in k a w'.

Notation "x <- m ;; k" := (bind m (fun x => k))
  (at level 61, m at next level, right associativity).
Notation "m ;;; k" := (bind m (fun _ => k))
  (at level 61, right associativity).

Definition set_link (l : k_sem) (w : modem) : modem :=
  {| link := l; notification_handler := notification_handler w;
     trace := trace w |}.

Definition log (e : event) (w : modem) : modem :=
  {| link := link w; notification_handler := notification_handler w;
     trace := trace w ++ [e] |}.

(** Modelled from the spec: [at_cmd_set_notification_handler] fills the
    single handler slot of the command channel; [None] is NULL. *)
Definition at_cmd_set_notification_handler (h : option at_cmd_handler_t)
  : M unit :=
  fun w => (tt, {| link := link w; notification_handler := h;
                   trace := trace w |}).

Definition k_sem_init_link (initial_count lim : Z) : M unit :=
  fun w => (tt, set_link (k_sem_init initial_count lim) w).

(** Modelled from the spec: the lines the modem sends are handed, in
    order, to the installed handler; without a handler they are dropped. *)
Definition deliver (ns : list notification) (w : modem) : modem :=
  match notification_handler w with
  | Some fn_at_handler =>
      set_link (fold_left (fun l n => at_handler n l) ns (link w)) w
  | None => w
  end.

Section Connect.

Variable cfg : config.
Variable env : environment.

(** Modelled from the spec: [at_cmd_write cmd NULL 0 NULL] sends a command
    and returns 0 or an error code; lines that arrive meanwhile reach the
    handler. *)
Definition at_cmd_write (cmd : at_cmd) : M Z :=
  fun w =>
    let i := List.length (trace w) in
    let r := at_cmd_result env i in
    (r, log (Ev_write cmd r) (deliver (unsolicited env i) w)).

(** [k_sem_take(&link, timeout)]: an available count is taken at once;
    otherwise, unless the timeout is [K_NO_WAIT], the caller pends while
    the lines of this period are delivered and returns 0 when one of them
    gave the semaphore, [-EAGAIN] when none did. *)
Definition k_sem_take_link (timeout : Z) : M Z :=
  fun w =>
    let i := List.length (trace w) in
    let sem := link w in
    if 0 <? count sem then
      let w := set_link {| count := count sem - 1; limit := limit sem;
                           pended := false |} w in
      (0, log (Ev_take 0) (deliver (unsolicited env i) w))
    else if timeout =? K_NO_WAIT then
      (- EBUSY, log (Ev_take (- EBUSY)) (deliver (unsolicited env i) w))
    else
      let w := set_link {| count := count sem; limit := limit sem;
                           pended := true |} w in
      let w := deliver (unsolicited env i) w in
      if pended (link w) then
        let w := set_link {| count := count (link w);
                             limit := limit (link w);
                             pended := false |} w in
        (- EAGAIN, log (Ev_take (- EAGAIN)) w)
      else (0, log (Ev_take 0) w).

(** One round of the do-while loop. [inl err] leaves the loop with [err]
    (through [goto exit] or with [retry] false); [inr mode] is [retry]
    true, with the network mode of the next round. *)
Definition connect_round (current_network_mode : at_cmd) : M (Z + at_cmd) :=
  r <- at_cmd_write current_network_mode ;;
  if negb (r =? 0) then ret (inl (- EIO))
  else
    r <- at_cmd_write normal ;;
    if negb (r =? 0) then ret (inl (- EIO))
    else
      err <- k_sem_take_link
               (K_SECONDS (CONFIG_LTE_NETWORK_TIMEOUT cfg)) ;;
      if err =? - EAGAIN then
        if CONFIG_LTE_NETWORK_USE_FALLBACK cfg
           && at_cmd_eqb current_network_mode nw_mode_preferred then
          let current_network_mode := nw_mode_fallback in
          r <- at_cmd_write offline ;;
          if negb (r =? 0) then ret (inl (- EIO))
          else ret (inr current_network_mode)
        else ret (inl (- ETIMEDOUT))
      else ret (inl err).

(** The do-while loop; [None] when the rounds allowed are used up. *)
Fixpoint connect_loop (fuel : nat) (current_network_mode : at_cmd)
  : M (option Z) :=
  match fuel with
  | O => ret None
  | S fuel' =>
      r <- connect_round current_network_mode ;;
      match r with
      | inl err => ret (Some err)
      | inr mode => connect_loop fuel' mode
      end
  end.

(** [w_lte_lc_connect]. The calls [at_params_list_init(&params, 10)] and
    [at_params_list_free(&params)] manage the storage of the token list
    that [at_handler] fills; the tokens of each line are part of the
    [notification]. *)
Definition w_lte_lc_connect (fuel : nat) : M (option Z) :=
  k_sem_init_link 0 1 ;;;
  at_cmd_set_notification_handler (Some fn_at_handler) ;;;
  r <- connect_loop fuel nw_mode_preferred ;;
  match r with
  | Some err =>
      (* exit: *)
      at_cmd_set_notification_handler None ;;;
      ret (Some err)
  | None => ret None
  end.

End Connect.

(** The modem before a call: any semaphore content, any handler installed,
    nothing done yet. *)
Definition modem_at_entry (l : k_sem) (h : option at_cmd_handler_t) : modem :=
  {| link := l; notification_handler := h; trace := [] |}.

(** [lte_lc_connect]: the wrapper around [w_lte_lc_connect]. *)
Definition lte_lc_connect (cfg : config) (env : environment) (fuel : nat)
    (l : k_sem) (h : option at_cmd_handler_t) : option Z * modem :=
  w_lte_lc_connect cfg env fuel (modem_at_entry l h).

(** The commands written and the results of the waits, read off a trace. *)
Fixpoint writes (tr : list event) : list at_cmd :=
  match tr with
  | [] => []
  | Ev_write c _ :: r => c :: writes r
  | Ev_take _ :: r => writes r
  end.

Fixpoint takes (tr : list event) : list Z :=
  match tr with
  | [] => []
  | Ev_write _ _ :: r => takes r
  | Ev_take e :: r => e :: takes r
  end.

Definition sent (c : at_cmd) (tr : list event) : nat :=
  List.length (filter (at_cmd_eqb c) (writes tr)).

(** Sample environments. *)
Definition urc (l : at_param_list) : notification :=
  {| urc_params := l; stack_id := repeat NUL 16; stack_val := 0 |}.

Definition quiet : nat -> list notification := fun _ => [].

Definition all_ok : nat -> Z := fun _ => 0.

Definition fail_at (k : nat) : nat -> Z :=
  fun i => if (i =? k)%nat then -1 else 0.

Definition cfg_fallback : config :=
  {| CONFIG_LTE_NETWORK_USE_FALLBACK := true;
     CONFIG_LTE_NETWORK_TIMEOUT := 600 |}.


(** ** The timer fields of the specification *)

(** Seconds that unit selector [u] and magnitude [m] stand for in a table:
    [-1] (deactivated) when the entry is 0, entry times magnitude otherwise. *)
Definition timer_seconds (lookup : list Z) (u m : Z) : Z :=
  let s := nth (Z.to_nat u) lookup 0 in
  if s =? 0 then -1 else s * m.

Definition is_bit (c : ascii) : bool := ((c =? "0") || (c =? "1"))%char.

(** A well-formed field: 8 characters, each 0 or 1. *)
Definition well_formed_field (f : string) : bool :=
  (String.length f =? 8)%nat && forallb is_bit (list_ascii_of_string f).

Definition no_minus_chars (l : list ascii) : bool :=
  forallb (fun c => negb (c =? "-")%char) l.

Definition no_minus (f : string) : bool :=
  no_minus_chars (list_ascii_of_string f).

(** Entries small enough for 31 units not to leave the range of [int]. *)
Definition table_ok (lookup : list Z) : bool :=
  (List.length lookup =? 8)%nat
  && forallb (fun s => (0 <=? s) && (s <=? 1152000)) lookup.

(** ** The rounds of [w_lte_lc_connect], as outcomes *)

(** What one round of the loop can do for a given network mode: the events
    it adds to the trace and how it ends. *)
Inductive round_outcome (cfg : config) (mode : at_cmd)
  : list event -> Z + at_cmd -> Prop :=
| Round_mode_failed r :
    r <> 0 ->
    round_outcome cfg mode [Ev_write mode r] (inl (- EIO))
| Round_normal_failed r :
    r <> 0 ->
    round_outcome cfg mode [Ev_write mode 0; Ev_write normal r]
      (inl (- EIO))
| Round_wait_over e :
    e <> - EAGAIN ->
    round_outcome cfg mode [Ev_write mode 0; Ev_write normal 0; Ev_take e]
      (inl e)
| Round_timed_out :
    CONFIG_LTE_NETWORK_USE_FALLBACK cfg
    && at_cmd_eqb mode nw_mode_preferred = false ->
    round_outcome cfg mode
      [Ev_write mode 0; Ev_write normal 0; Ev_take (- EAGAIN)]
      (inl (- ETIMEDOUT))
| Round_offline_failed r :
    CONFIG_LTE_NETWORK_USE_FALLBACK cfg
    && at_cmd_eqb mode nw_mode_preferred = true ->
    r <> 0 ->
    round_outcome cfg mode
      [Ev_write mode 0; Ev_write normal 0; Ev_take (- EAGAIN);
       Ev_write offline r]
      (inl (- EIO))
| Round_retry :
    CONFIG_LTE_NETWORK_USE_FALLBACK cfg
    && at_cmd_eqb mode nw_mode_preferred = true ->
    round_outcome cfg mode
      [Ev_write mode 0; Ev_write normal 0; Ev_take (- EAGAIN);
       Ev_write offline 0]
      (inr nw_mode_fallback).

(** What a whole call can do: one round in the preferred mode, or a round
    that asks for a retry and one round in the fallback mode. *)
Inductive connect_outcome (cfg : config) : list event -> Z -> Prop :=
| Connect_one evs err :
    round_outcome cfg nw_mode_preferred evs (inl err) ->
    connect_outcome cfg evs err
| Connect_two evs1 evs2 err :
    round_outcome cfg nw_mode_preferred evs1 (inr nw_mode_fallback) ->
    round_outcome cfg nw_mode_fallback evs2 (inl err) ->
    connect_outcome cfg (evs1 ++ evs2) err.

(** The semaphore as [k_sem_init(&link, 0, 1)] leaves it to the calls that
    follow: limit 1 and a count of 0 or 1. *)
Definition link_inv (s : k_sem) : Prop :=
  limit s = 1 /\ 0 <= count s <= 1.

(** A call leaves the handler alone, adds its events to the trace and keeps
    the semaphore in its range. *)
Definition extends (w w' : modem) (evs : list event) : Prop :=
  trace w' = trace w ++ evs
  /\ notification_handler w' = notification_handler w
  /\ (link_inv (link w) -> link_inv (link w')).

(** Splits an outcome of the call into its cases; every case has a trace
    that is written out. *)
Ltac connect_cases O :=
  let R := fresh "R" in
  let R1 := fresh "R" in
  let R2 := fresh "R" in
  inversion O as [? ? R | ? ? ? R1 R2]; subst;
  [inversion R; subst | inversion R1; subst; inversion R2; subst].

Ltac absurd_off :=
  match goal with
  | E : CONFIG_LTE_NETWORK_USE_FALLBACK ?c = false,
    F : CONFIG_LTE_NETWORK_USE_FALLBACK ?c && _ = true |- _ =>
      rewrite E in F; discriminate F
  end.

Ltac absurd_flag :=
  match goal with
  | F : _ && at_cmd_eqb nw_mode_fallback nw_mode_preferred = true |- _ =>
      rewrite andb_false_r in F; discriminate F
  | E : CONFIG_LTE_NETWORK_USE_FALLBACK ?c = true,
    F : CONFIG_LTE_NETWORK_USE_FALLBACK ?c && _ = false |- _ =>
      rewrite E in F; discriminate F
  end.

(** ** Lines that do not report a registration *)

(** The kind of line the listener passes over: an identifier token of at
    most 16 characters that is empty or differs from +CEREG at one of its
    own first 6 characters, or an integer status other than 1 and 5. *)
Definition ignorable (n : notification) : bool :=
  match nth_error (urc_params n) 0 with
  | Some (AT_PARAM_STRING s) =>
      (String.length s <=? 16)%nat
      && ((String.length s =? 0)%nat
          || negb (memcmp_eq (list_ascii_of_string s)
                     (list_ascii_of_string "+CEREG")
                     (Nat.min 6 (String.length s))))
  | _ => false
  end
  || match at_params_int_get (urc_params n) 1 with
     | Some v => negb ((v =? 1) || (v =? 5))
     | None => false
     end.

Definition all_ignorable (env : environment) : Prop :=
  forall i x, In x (unsolicited env i) -> ignorable x = true.

(** What a call looks like while no line gives the semaphore: the semaphore
    stays as initialised, every wait ends without a signal, and every write
    has the return code of the environment. *)
Definition unsignalled (cfg : config) (env : environment)
    (lk : k_sem) (tr : list event) : Prop :=
  lk = k_sem_init 0 1
  /\ (forall e, In (Ev_take e) tr ->
        e = if K_SECONDS (CONFIG_LTE_NETWORK_TIMEOUT cfg) =? K_NO_WAIT
            then - EBUSY else - EAGAIN)
  /\ (forall c r, In (Ev_write c r) tr -> exists i, r = at_cmd_result env i).

Definition cfg_no_fallback : config :=
  {| CONFIG_LTE_NETWORK_USE_FALLBACK := false;
     CONFIG_LTE_NETWORK_TIMEOUT := 600 |}.

(** A timeout whose milliseconds wrap to 0 in 32 bits. *)
Definition cfg_wrapped_timeout : config :=
  {| CONFIG_LTE_NETWORK_USE_FALLBACK := true;
     CONFIG_LTE_NETWORK_TIMEOUT := 536870912 |}.

(** ** w_lte_lc_init and w_lte_lc_init_and_connect *)

(** The command strings of the driver: those of the connection loop and the
    ones that only the set-up and the one-command functions send. *)
Inductive lc_cmd : Type :=
| cmd (c : at_cmd)
| edrx_req
| edrx_disable
| psm_req
| psm_disable
| power_off
| mdm_trace
| cereg_5_subscribe
| lock_bands
| lock_plmn
| legacy_pco
| cgdcont
| cgauth.

(** The Kconfig switches that select the statements of [w_lte_lc_init]. *)
Record init_config : Type := {
  CONFIG_LTE_EDRX_REQ : bool;
  CONFIG_BSD_LIBRARY_TRACE_ENABLED : bool;
  CONFIG_LTE_LOCK_BANDS : bool;
  CONFIG_LTE_LOCK_PLMN : bool;
  CONFIG_LTE_LEGACY_PCO_MODE : bool;
  CONFIG_LTE_PDP_CMD : bool;
  CONFIG_LTE_PDN_AUTH_CMD : bool
}.

(** The commands written so far, each with its return code. *)
Definition init_log : Type := list (lc_cmd * Z).

(** One statement of [w_lte_lc_init], compiled in when [enabled]:
<<
      if (at_cmd_write(c, NULL, 0, NULL) != 0) { return -EIO; }
>>
    followed by the rest of the function. *)
Definition init_write (env : environment) (enabled : bool) (c : lc_cmd)
    (rest : init_log -> Z * init_log) (lg : init_log) : Z * init_log :=
  if enabled then
    let r := at_cmd_result env (List.length lg) in
    let lg := lg ++ [(c, r)] in
    if negb (r =? 0) then (- EIO, lg) else rest lg
  else rest lg.

Definition w_lte_lc_init (ic : init_config) (env : environment)
  : Z * init_log :=
  init_write env (CONFIG_LTE_EDRX_REQ ic) edrx_req
  (init_write env (CONFIG_BSD_LIBRARY_TRACE_ENABLED ic) mdm_trace
  (init_write env true cereg_5_subscribe
  (init_write env (CONFIG_LTE_LOCK_BANDS ic) lock_bands
  (init_write env (CONFIG_LTE_LOCK_PLMN ic) lock_plmn
  (init_write env (CONFIG_LTE_LEGACY_PCO_MODE ic) legacy_pco
  (init_write env (CONFIG_LTE_PDP_CMD ic) cgdcont
  (init_write env (CONFIG_LTE_PDN_AUTH_CMD ic) cgauth
  (fun lg => (0, lg))))))))) [].

(** [lte_lc_init]: the wrapper around [w_lte_lc_init]. *)
Definition lte_lc_init (ic : init_config) (env : environment)
  : Z * init_log :=
  w_lte_lc_init ic env.

(** The environment as seen after [k] calls. *)
Definition shift_env (k : nat) (env : environment) : environment :=
  {| at_cmd_result := fun i => at_cmd_result env (k + i);
     unsolicited := fun i => unsolicited env (k + i) |}.

(** [w_lte_lc_init_and_connect]: the set-up, and the connection only when
    the set-up returned 0. The result is the return value, the commands of
    the set-up and, when the connection was tried, the modem it left. *)
Definition w_lte_lc_init_and_connect (ic : init_config) (cfg : config)
    (env : environment) (fuel : nat) (l : k_sem)
    (h : option at_cmd_handler_t) : option Z * init_log * option modem :=
  let '(ret, lg) := w_lte_lc_init ic env in
  if negb (ret =? 0) then (Some ret, lg, None)
  else
    let '(r, w) :=
      lte_lc_connect cfg (shift_env (List.length lg) env) fuel l h in
    (r, lg, Some w).

(** [lte_lc_init_and_connect]: the wrapper. *)
Definition lte_lc_init_and_connect (ic : init_config) (cfg : config)
    (env : environment) (fuel : nat) (l : k_sem)
    (h : option at_cmd_handler_t) : option Z * init_log * option modem :=
  w_lte_lc_init_and_connect ic cfg env fuel l h.

(** The commands that a configuration compiles into the set-up, in the
    order of the source. *)
Definition init_cmds (ic : init_config) : list lc_cmd :=
  (if CONFIG_LTE_EDRX_REQ ic then [edrx_req] else [])
  ++ (if CONFIG_BSD_LIBRARY_TRACE_ENABLED ic then [mdm_trace] else [])
  ++ [cereg_5_subscribe]
  ++ (if CONFIG_LTE_LOCK_BANDS ic then [lock_bands] else [])
  ++ (if CONFIG_LTE_LOCK_PLMN ic then [lock_plmn] else [])
  ++ (if CONFIG_LTE_LEGACY_PCO_MODE ic then [legacy_pco] else [])
  ++ (if CONFIG_LTE_PDP_CMD ic then [cgdcont] else [])
  ++ (if CONFIG_LTE_PDN_AUTH_CMD ic then [cgauth] else []).

(** The set-up statements for a list of commands, one after the other. *)
Fixpoint init_writes (env : environment) (cs : list lc_cmd)
    (lg : init_log) : Z * init_log :=
  match cs with
  | [] => (0, lg)
  | c :: cs' => init_write env true c (init_writes env cs') lg
  end.

Definition init_all_on : init_config :=
  {| CONFIG_LTE_EDRX_REQ := true; CONFIG_BSD_LIBRARY_TRACE_ENABLED := true;
     CONFIG_LTE_LOCK_BANDS := true; CONFIG_LTE_LOCK_PLMN := true;
     CONFIG_LTE_LEGACY_PCO_MODE := true; CONFIG_LTE_PDP_CMD := true;
     CONFIG_LTE_PDN_AUTH_CMD := true |}.

Definition init_all_off : init_config :=
  {| CONFIG_LTE_EDRX_REQ := false; CONFIG_BSD_LIBRARY_TRACE_ENABLED := false;
     CONFIG_LTE_LOCK_BANDS := false; CONFIG_LTE_LOCK_PLMN := false;
     CONFIG_LTE_LEGACY_PCO_MODE := false; CONFIG_LTE_PDP_CMD := false;
     CONFIG_LTE_PDN_AUTH_CMD := false |}.

(** ** Lines that report a registration *)

(** A registration report: the identifier token is +CEREG and the status is
    the integer 1 or 5. *)
Definition registered (x : notification) : bool :=
  match nth_error (urc_params x) 0, at_params_int_get (urc_params x) 1 with
  | Some (AT_PARAM_STRING s), Some v =>
      String.eqb s "+CEREG" && ((v =? 1) || (v =? 5))
  | _, _ => false
  end.

(** The return codes that [k_sem_take] can leave in a trace. *)
Definition take_codes (cfg : config) (tr : list event) : Prop :=
  forall e, In (Ev_take e) tr ->
    e = 0
    \/ (if K_SECONDS (CONFIG_LTE_NETWORK_TIMEOUT cfg) =? K_NO_WAIT
        then e = - EBUSY
        else e = - EAGAIN).

Definition is_write (c : at_cmd) (e : event) : bool :=
  match e with
  | Ev_write c' _ => at_cmd_eqb c c'
  | Ev_take _ => false
  end.

(** * Properties *)

(** ** strtoul on binary digits *)

Lemma strtoul_digits_NUL base l r acc ovf :
  strtoul_digits base (l ++ NUL :: r) acc ovf = strtoul_digits base l acc ovf.
Proof.
  revert acc ovf; induction l as [|c l IH]; intros acc ovf; simpl.
  - reflexivity.
  - destruct (digit_value c) as [d|]; [|reflexivity].
    destruct (base <=? d); [reflexivity|].
    destruct (ovf || (ULONG_MAX / base <? acc)
              || ((acc =? ULONG_MAX / base) && (ULONG_MAX mod base <? d)));
      apply IH.
Qed.

Lemma strtoul_NUL l r base : strtoul (l ++ NUL :: r) base = strtoul l base.
Proof.
  unfold strtoul.
  induction l as [|c l IH]; cbn [skip_space app].
  - reflexivity.
  - destruct (isspace c); [exact IH|].
    destruct ((c =? "-")%char || (c =? "+")%char).
    + rewrite strtoul_digits_NUL; reflexivity.
    + change (c :: l ++ NUL :: r) with ((c :: l) ++ NUL :: r).
      rewrite strtoul_digits_NUL; reflexivity.
Qed.

Lemma strtoul_digits_step c d r acc :
  digit_value c = Some d -> 0 <= d < 2 -> 0 <= acc <= 2147483647 ->
  strtoul_digits 2 (c :: r) acc false = strtoul_digits 2 r (acc * 2 + d) false.
Proof.
  intros Hc Hd Hacc; simpl; rewrite Hc.
  change (ULONG_MAX / 2) with 2147483647; change (ULONG_MAX mod 2) with 1.
  destruct (2 <=? d) eqn:E1; [apply Z.leb_le in E1; lia|].
  destruct (2147483647 <? acc) eqn:E2; [apply Z.ltb_lt in E2; lia|].
  destruct (1 <? d) eqn:E3; [apply Z.ltb_lt in E3; lia|].
  rewrite andb_false_r; reflexivity.
Qed.

(** Without overflow the digit loop stays below [(acc + 1) * 2 ^ length]. *)
Lemma strtoul_digits_bound l : forall acc,
  0 <= acc -> (acc + 1) * 2 ^ Z.of_nat (List.length l) <= 2 ^ 32 ->
  exists a, strtoul_digits 2 l acc false = (a, false)
            /\ 0 <= a < (acc + 1) * 2 ^ Z.of_nat (List.length l).
Proof.
  induction l as [|c l IH]; intros acc H0 Hb.
  - exists acc; simpl in *; split; [reflexivity|lia].
  - assert (Hp : 0 < 2 ^ Z.of_nat (List.length l)) by (apply Z.pow_pos_nonneg; lia).
    assert (Hs : 2 ^ Z.of_nat (List.length (c :: l))
                 = 2 * 2 ^ Z.of_nat (List.length l)).
    { simpl List.length; rewrite Nat2Z.inj_succ, Z.pow_succ_r by lia; reflexivity. }
    rewrite Hs in *.
    assert (Hq : acc < (acc + 1) * (2 * 2 ^ Z.of_nat (List.length l))).
    { apply Z.lt_le_trans with ((acc + 1) * 1); [lia|].
      apply Z.mul_le_mono_nonneg_l; lia. }
    destruct (digit_value c) as [d|] eqn:Hc.
    + destruct (2 <=? d) eqn:E1.
      * exists acc; cbn [strtoul_digits]; rewrite Hc, E1; split; [reflexivity|lia].
      * apply Z.leb_gt in E1.
        assert (0 <= d).
        { unfold digit_value in Hc.
          repeat match type of Hc with
                 | (if ?b then _ else _) = _ => destruct b eqn:?
                 end; inversion Hc; subst; lia. }
        rewrite (strtoul_digits_step c d) by (auto; nia).
        destruct (IH (acc * 2 + d)) as (a & Ha & Hr); [lia|nia|].
        exists a; split; [exact Ha|nia].
    + exists acc; cbn [strtoul_digits]; rewrite Hc; split; [reflexivity|lia].
Qed.

Lemma bit_digit d :
  0 <= d < 2 ->
  digit_value (if d =? 1 then "1"%char else "0"%char) = Some d.
Proof.
  intros H; assert (d = 0 \/ d = 1) as [-> | ->] by lia; reflexivity.
Qed.

Lemma strtoul_digits_bits n : forall v acc,
  0 <= acc -> (acc + 1) * 2 ^ Z.of_nat n <= 2 ^ 32 ->
  strtoul_digits 2 (bits n v) acc false
  = (acc * 2 ^ Z.of_nat n + v mod 2 ^ Z.of_nat n, false).
Proof.
  induction n as [|k IH]; intros v acc H0 Hb.
  - simpl; rewrite Z.mod_1_r; f_equal; lia.
  - assert (Hp : 0 < 2 ^ Z.of_nat k) by (apply Z.pow_pos_nonneg; lia).
    assert (Hs : 2 ^ Z.of_nat (S k) = 2 ^ Z.of_nat k * 2).
    { rewrite Nat2Z.inj_succ, Z.pow_succ_r by lia; lia. }
    rewrite Hs in *.
    assert (Hd : 0 <= (v / 2 ^ Z.of_nat k) mod 2 < 2)
      by (apply Z.mod_pos_bound; lia).
    cbn [bits].
    rewrite (strtoul_digits_step _ _ _ _ (bit_digit _ Hd) Hd) by nia.
    rewrite IH by nia.
    rewrite (Z.rem_mul_r v (2 ^ Z.of_nat k) 2) by lia.
    f_equal; lia.
Qed.

Lemma bits_head n v :
  skip_space (bits n v) = bits n v
  /\ match bits n v with
     | c :: _ => ((c =? "-") || (c =? "+"))%char = false
     | [] => True
     end.
Proof.
  destruct n as [|k]; cbn [bits]; [split; [reflexivity|exact I]|].
  destruct ((v / 2 ^ Z.of_nat k) mod 2 =? 1); split; reflexivity.
Qed.

(** strtoul reads back the binary digits of a value. *)
Lemma strtoul_bits n v :
  (n <= 32)%nat -> 0 <= v < 2 ^ Z.of_nat n -> strtoul (bits n v) 2 = v.
Proof.
  intros Hn Hv.
  assert (Hb : (0 + 1) * 2 ^ Z.of_nat n <= 2 ^ 32).
  { rewrite Z.mul_1_l; apply Z.pow_le_mono_r; lia. }
  pose proof (strtoul_digits_bits n v 0 (Z.le_refl 0) Hb) as Hd.
  destruct (bits_head n v) as [Hk Hh].
  unfold strtoul; rewrite Hk.
  destruct (bits n v) as [|c r] eqn:E.
  - simpl in Hd |- *. injection Hd as Hd. rewrite Z.mod_small in Hd by lia. lia.
  - apply orb_false_iff in Hh as [Hm Hplus].
    rewrite Hm, Hplus; cbn [orb].
    rewrite Hd, Z.mod_small by lia; simpl; lia.
Qed.

Lemma skip_space_suffix l : exists p, l = p ++ skip_space l.
Proof.
  induction l as [|c l [p Hp]]; [exists []; reflexivity|].
  cbn [skip_space]; destruct (isspace c).
  - exists (c :: p); simpl; congruence.
  - exists []; reflexivity.
Qed.

(** Without a minus sign strtoul in base 2 stays below [2 ^ length]. *)
Lemma strtoul_no_minus_bound l :
  no_minus_chars l = true -> (List.length l <= 32)%nat ->
  0 <= strtoul l 2 < 2 ^ Z.of_nat (List.length l).
Proof.
  intros Hm Hl.
  destruct (skip_space_suffix l) as [p Hp].
  assert (Hlen : (List.length (skip_space l) <= List.length l)%nat).
  { rewrite Hp at 2; rewrite length_app; lia. }
  assert (Hms : no_minus_chars (skip_space l) = true).
  { unfold no_minus_chars in *; rewrite Hp, forallb_app in Hm.
    apply andb_true_iff in Hm; tauto. }
  unfold strtoul.
  assert (Hgen : forall s, (List.length s <= List.length l)%nat ->
            exists a, strtoul_digits 2 s 0 false = (a, false)
                      /\ 0 <= a < 2 ^ Z.of_nat (List.length l)).
  { intros s Hs.
    assert (Hle : 2 ^ Z.of_nat (List.length s) <= 2 ^ Z.of_nat (List.length l))
      by (apply Z.pow_le_mono_r; lia).
    assert (Hle32 : 2 ^ Z.of_nat (List.length l) <= 2 ^ 32)
      by (apply Z.pow_le_mono_r; lia).
    destruct (strtoul_digits_bound s 0) as (a & Ha & Hr); [lia|lia|].
    exists a; split; [exact Ha|lia]. }
  destruct (skip_space l) as [|c r] eqn:E.
  - destruct (Hgen [] ltac:(simpl; lia)) as (a & Ha & Hr).
    rewrite Ha; exact Hr.
  - unfold no_minus_chars in Hms; cbn [forallb] in Hms.
    apply andb_true_iff in Hms as [Hc _].
    apply negb_true_iff in Hc; rewrite Hc; cbn [orb].
    destruct (c =? "+")%char.
    + destruct (Hgen r ltac:(simpl in Hlen; lia)) as (a & Ha & Hr).
      rewrite Ha; exact Hr.
    + destruct (Hgen (c :: r) Hlen) as (a & Ha & Hr).
      rewrite Ha; exact Hr.
Qed.

Lemma strtoul_repeat_NUL l j base :
  strtoul (l ++ repeat NUL j) base = strtoul l base.
Proof.
  destruct j as [|j]; [rewrite app_nil_r; reflexivity|].
  apply strtoul_NUL.
Qed.

Lemma to_int_small x : 0 <= x < 2 ^ 31 -> to_int (to_u32 x) = x.
Proof.
  intros H; unfold to_int, to_u32.
  rewrite Z.mod_mod by lia.
  rewrite Z.mod_small by lia.
  destruct (x <? 2 ^ 31) eqn:E; [reflexivity|apply Z.ltb_ge in E; lia].
Qed.

(** ** The timer decoder *)

Lemma firstn_repeat_NUL m n : exists j, firstn m (repeat NUL n) = repeat NUL j.
Proof.
  revert n; induction m as [|m IH]; intros [|n]; simpl;
    try (exists O; reflexivity).
  destruct (IH n) as [j Hj]; exists (S j); simpl; congruence.
Qed.

Lemma skipn_repeat_NUL m n : exists j, skipn m (repeat NUL n) = repeat NUL j.
Proof.
  revert n; induction m as [|m IH]; intros [|n]; simpl;
    try (exists O; reflexivity).
  - exists (S n); reflexivity.
  - apply IH.
Qed.

Lemma no_minus_chars_parts n f :
  no_minus_chars f = true ->
  no_minus_chars (firstn n f) = true /\ no_minus_chars (skipn n f) = true.
Proof.
  intros H; rewrite <- (firstn_skipn n f) in H.
  unfold no_minus_chars in *; rewrite forallb_app in H.
  apply andb_true_iff in H; exact H.
Qed.

Lemma table_ok_nth lookup i :
  table_ok lookup = true -> 0 <= nth i lookup 0 <= 1152000.
Proof.
  unfold table_ok; intros H; apply andb_true_iff in H as [_ H].
  rewrite forallb_forall in H.
  destruct (Nat.lt_ge_cases i (List.length lookup)) as [Hi|Hi].
  - specialize (H _ (nth_In lookup 0 Hi)).
    apply andb_true_iff in H as [H1 H2].
    apply Z.leb_le in H1, H2; lia.
  - rewrite nth_overflow by exact Hi; lia.
Qed.

Lemma unit_str_tail us :
  List.length us = 4%nat -> nth 3 us NUL = NUL -> skipn 3 us = [NUL].
Proof.
  destruct us as [|a [|b [|c [|d [|e us]]]]]; simpl; try discriminate.
  intros _ ->; reflexivity.
Qed.

(** What the decoding statements make of a buffer that holds the field [f]
    followed by NUL bytes: each part is read by strtoul on its own, nothing
    is rejected, and nothing wraps around. *)
Lemma decode_timer_lenient lookup f k us :
  table_ok lookup = true ->
  no_minus_chars f = true -> (List.length f <= 8)%nat ->
  List.length us = 4%nat -> nth 3 us NUL = NUL ->
  let u := strtoul (firstn 3 f) 2 in
  let m := strtoul (skipn 3 f) 2 in
  0 <= u <= 7 /\ 0 <= m <= 31 /\
  decode_timer lookup (f ++ repeat NUL (S k)) us 3
  = (firstn 3 (f ++ repeat NUL (S k)) ++ [NUL],
     inr (timer_seconds lookup u m)).
Proof.
  intros Ht Hm Hl Hus Hnul u m.
  destruct (no_minus_chars_parts 3 f Hm) as [Hm1 Hm2].
  assert (Hu : 0 <= u <= 7).
  { pose proof (strtoul_no_minus_bound (firstn 3 f) Hm1) as B.
    assert (L : (List.length (firstn 3 f) <= 3)%nat) by (rewrite length_firstn; lia).
    specialize (B ltac:(lia)).
    assert (2 ^ Z.of_nat (List.length (firstn 3 f)) <= 2 ^ 3)
      by (apply Z.pow_le_mono_r; lia).
    unfold u; lia. }
  assert (Hv : 0 <= m <= 31).
  { pose proof (strtoul_no_minus_bound (skipn 3 f) Hm2) as B.
    assert (L : (List.length (skipn 3 f) <= 5)%nat) by (rewrite length_skipn; lia).
    specialize (B ltac:(lia)).
    assert (2 ^ Z.of_nat (List.length (skipn 3 f)) <= 2 ^ 5)
      by (apply Z.pow_le_mono_r; lia).
    unfold m; lia. }
  split; [exact Hu|]. split; [exact Hv|].
  unfold decode_timer, memcpy.
  rewrite (unit_str_tail us Hus Hnul).
  assert (E1 : strtoul (firstn 3 (f ++ repeat NUL (S k)) ++ [NUL]) 2 = u).
  { rewrite strtoul_NUL, firstn_app.
    destruct (firstn_repeat_NUL (3 - List.length f) (S k)) as [j ->].
    apply strtoul_repeat_NUL. }
  assert (E2 : strtoul (skipn 3 (f ++ repeat NUL (S k))) 2 = m).
  { rewrite skipn_app.
    destruct (skipn_repeat_NUL (3 - List.length f) (S k)) as [j ->].
    apply strtoul_repeat_NUL. }
  rewrite E1, E2.
  assert (Hsz : ARRAY_SIZE lookup = 8).
  { unfold table_ok in Ht; apply andb_true_iff in Ht as [Ht _].
    apply Nat.eqb_eq in Ht; unfold ARRAY_SIZE; rewrite Ht; reflexivity. }
  rewrite Hsz.
  destruct (u >? 8 - 1) eqn:E; [apply Z.gtb_lt in E; lia|].
  f_equal; f_equal.
  unfold timer_seconds.
  pose proof (table_ok_nth lookup (Z.to_nat u) Ht) as Hn.
  destruct (nth (Z.to_nat u) lookup 0 =? 0); [reflexivity|].
  apply to_int_small.
  change (2 ^ 31) with 2147483648; nia.
Qed.

(** ** lte_lc_psm_get on a parsed reply *)

Lemma string_length_list s :
  List.length (list_ascii_of_string s) = String.length s.
Proof. induction s as [|c s IH]; simpl; congruence. Qed.

Lemma string_get_ok toks i s buf len :
  nth_error toks i = Some (AT_PARAM_STRING s) ->
  (String.length s <= len)%nat ->
  at_params_string_get toks i buf len
  = (0, list_ascii_of_string s ++ skipn (String.length s) buf,
     String.length s).
Proof.
  intros H Hl; unfold at_params_string_get, memcpy; rewrite H.
  rewrite string_length_list.
  destruct (len <? String.length s)%nat eqn:E; [apply Nat.ltb_lt in E; lia|].
  rewrite <- (string_length_list s) at 1; rewrite firstn_all; reflexivity.
Qed.



Lemma tables_ok : table_ok t3412_lookup = true /\ table_ok t3324_lookup = true.
Proof. split; reflexivity. Qed.


(** Two fields of 8 characters without a minus sign: the call succeeds and
    both outputs hold what strtoul reads from the parts of each field. *)
Lemma psm_get_fields toks s a tau0 at0 :
  nth_error toks AT_CEREG_TAU_INDEX = Some (AT_PARAM_STRING s) ->
  nth_error toks AT_CEREG_ACTIVE_TIME_INDEX = Some (AT_PARAM_STRING a) ->
  String.length s = 8%nat -> String.length a = 8%nat ->
  no_minus s = true -> no_minus a = true ->
  lte_lc_psm_get (reply_ok toks) (Some tau0) (Some at0)
  = {| psm_ret := 0;
       psm_tau :=
         Some (timer_seconds t3412_lookup
                 (strtoul (firstn 3 (list_ascii_of_string s)) 2)
                 (strtoul (skipn 3 (list_ascii_of_string s)) 2));
       psm_active_time :=
         Some (timer_seconds t3324_lookup
                 (strtoul (firstn 3 (list_ascii_of_string a)) 2)
                 (strtoul (skipn 3 (list_ascii_of_string a)) 2)) |}.
Proof.
  intros H9 H8 Ls La Ms Ma.
  unfold lte_lc_psm_get; cbn [reply_ok cereg_5_err cereg_read_err
    list_init_err parser_err at_resp_list Z.eqb negb].
  change (9 - 1)%nat with 8%nat; change (4 - 1)%nat with 3%nat.
  rewrite (string_get_ok _ _ _ _ 8%nat H9) by lia.
  rewrite Ls; change (skipn 8 (repeat NUL 9)) with (repeat NUL 1).
  cbn [Z.eqb negb].
  destruct tables_ok as [T1 T2].
  destruct (decode_timer_lenient t3412_lookup (list_ascii_of_string s)
              0 (repeat NUL 4) T1 Ms
              ltac:(rewrite string_length_list; lia) eq_refl eq_refl)
    as (_ & _ & ->).
  rewrite (string_get_ok _ _ _ _ 8%nat H8) by lia.
  rewrite La, skipn_app, string_length_list, Ls.
  rewrite (skipn_all2 (n := 8) (list_ascii_of_string s))
    by (rewrite string_length_list; lia).
  change (skipn (8 - 8) (repeat NUL 1)) with (repeat NUL 1).
  cbn [Z.eqb negb app].
  assert (L3 : List.length
                 (firstn 3 (list_ascii_of_string s ++ repeat NUL 1) ++ [NUL])
               = 4%nat).
  { rewrite length_app, length_firstn, length_app, string_length_list, Ls.
    reflexivity. }
  assert (N3 : nth 3 (firstn 3 (list_ascii_of_string s ++ repeat NUL 1)
                      ++ [NUL]) NUL = NUL).
  { rewrite app_nth2; rewrite length_firstn, length_app, string_length_list, Ls;
      simpl; [reflexivity|lia]. }
  destruct (decode_timer_lenient t3324_lookup (list_ascii_of_string a)
              0 _ T2 Ma ltac:(rewrite string_length_list; lia) L3 N3)
    as (_ & _ & ->).
  reflexivity.
Qed.

Lemma bits_length n v : List.length (bits n v) = n.
Proof. induction n as [|k IH]; simpl; congruence. Qed.

Lemma bits_no_minus n v : no_minus_chars (bits n v) = true.
Proof.
  induction n as [|k IH]; [reflexivity|].
  cbn [bits no_minus_chars forallb]; fold (no_minus_chars (bits k v)).
  rewrite IH; destruct ((v / 2 ^ Z.of_nat k) mod 2 =? 1); reflexivity.
Qed.

Lemma timer_field_chars u m :
  list_ascii_of_string (timer_field u m) = bits 3 u ++ bits 5 m.
Proof. apply list_ascii_of_string_of_list_ascii. Qed.

Lemma timer_field_parts u m :
  String.length (timer_field u m) = 8%nat
  /\ no_minus (timer_field u m) = true
  /\ firstn 3 (list_ascii_of_string (timer_field u m)) = bits 3 u
  /\ skipn 3 (list_ascii_of_string (timer_field u m)) = bits 5 m.
Proof.
  rewrite <- string_length_list; unfold no_minus.
  rewrite timer_field_chars.
  split; [|split; [|split]].
  - rewrite length_app, !bits_length; reflexivity.
  - unfold no_minus_chars; rewrite forallb_app.
    apply andb_true_iff; split; apply bits_no_minus.
  - reflexivity.
  - reflexivity.
Qed.

Lemma is_bit_no_minus l : forallb is_bit l = true -> no_minus_chars l = true.
Proof.
  unfold no_minus_chars; rewrite !forallb_forall; intros H c Hc.
  specialize (H c Hc); unfold is_bit in H.
  apply orb_true_iff in H as [H|H]; apply Ascii.eqb_eq in H; subst;
    reflexivity.
Qed.

Lemma well_formed_field_parts f :
  well_formed_field f = true ->
  String.length f = 8%nat /\ no_minus f = true.
Proof.
  unfold well_formed_field; intros H; apply andb_true_iff in H as [H1 H2].
  apply Nat.eqb_eq in H1; split; [exact H1|].
  apply is_bit_no_minus; exact H2.
Qed.

(** C1. For every unit selector [u] in 0..7 and magnitude [m] in 0..31, an
    8-character field with first 3 bits [u] and last 5 bits [m] decodes to
    [-1] (deactivated) when the table entry for [u] is 0 and to entry times
    [m] seconds otherwise; this holds for the TAU field over [t3412_lookup]
    and for the active-time field over [t3324_lookup]. *)
Theorem psm_timer_value toks u m u' m' tau0 at0 :
  0 <= u <= 7 -> 0 <= m <= 31 -> 0 <= u' <= 7 -> 0 <= m' <= 31 ->
  nth_error toks AT_CEREG_TAU_INDEX
    = Some (AT_PARAM_STRING (timer_field u m)) ->
  nth_error toks AT_CEREG_ACTIVE_TIME_INDEX
    = Some (AT_PARAM_STRING (timer_field u' m')) ->
  lte_lc_psm_get (reply_ok toks) (Some tau0) (Some at0)
  = {| psm_ret := 0;
       psm_tau :=
         Some (let s := nth (Z.to_nat u) t3412_lookup 0 in
               if s =? 0 then -1 else s * m);
       psm_active_time :=
         Some (let s := nth (Z.to_nat u') t3324_lookup 0 in
               if s =? 0 then -1 else s * m') |}.
Proof.
  intros Hu Hm Hu' Hm' H9 H8.
  destruct (timer_field_parts u m) as (L & N & F & S).
  destruct (timer_field_parts u' m') as (L' & N' & F' & S').
  rewrite (psm_get_fields toks _ _ tau0 at0 H9 H8 L L' N N').
  rewrite F, S, F', S'.
  rewrite !strtoul_bits by (simpl; lia).
  reflexivity.
Qed.

Lemma psm_timer_value_witness :
  (0 <= 1 <= 7 /\ 0 <= 5 <= 31 /\ 0 <= 6 <= 7 /\ 0 <= 31 <= 31)
  /\ lte_lc_psm_get
       (reply_ok (cereg_tokens (timer_field 6 31) (timer_field 1 5)))
       (Some 0) (Some 0)
     = {| psm_ret := 0; psm_tau := Some 18000;
          psm_active_time := Some 1860 |}.
Proof.
  split; [lia|].
  apply (psm_timer_value
           (cereg_tokens (timer_field 6 31) (timer_field 1 5)) 1 5 6 31 0 0);
    solve [lia | reflexivity].
Defined.

(** C8. The tables hold the values of the examples of the specification
    (active-time entry 1 is 60, TAU entry 0 is 600, entry 7 is 0 in both):
    field 00100101 decodes to 300 seconds over the active-time table, field
    00000010 to 1200 seconds over the TAU table, and field 11100000 to the
    deactivated value [-1] over either table. *)
Theorem spec_timer_examples :
  nth 1 t3324_lookup 0 = 60 /\ nth 0 t3412_lookup 0 = 600
  /\ nth 7 t3324_lookup 0 = 0 /\ nth 7 t3412_lookup 0 = 0
  /\ lte_lc_psm_get (reply_ok (cereg_tokens "00100101" "00000010"))
       (Some 0) (Some 0)
     = {| psm_ret := 0; psm_tau := Some 1200; psm_active_time := Some 300 |}
  /\ lte_lc_psm_get (reply_ok (cereg_tokens "11100000" "11100000"))
       (Some 0) (Some 0)
     = {| psm_ret := 0; psm_tau := Some (-1);
          psm_active_time := Some (-1) |}
  /\ snd (decode_timer t3324_lookup
            (memcpy (repeat NUL 9) (list_ascii_of_string "00100101") 8)
            (repeat NUL 4) 3) = inr 300
  /\ snd (decode_timer t3412_lookup
            (memcpy (repeat NUL 9) (list_ascii_of_string "00000010") 8)
            (repeat NUL 4) 3) = inr 1200
  /\ snd (decode_timer t3324_lookup
            (memcpy (repeat NUL 9) (list_ascii_of_string "11100000") 8)
            (repeat NUL 4) 3) = inr (-1)
  /\ snd (decode_timer t3412_lookup
            (memcpy (repeat NUL 9) (list_ascii_of_string "11100000") 8)
            (repeat NUL 4) 3) = inr (-1).
Proof. repeat split; vm_compute; reflexivity. Qed.

(** C9. For every well-formed field (8 characters, each 0 or 1) the index
    that strtoul reads from the first 3 characters is at most 7: the check
    [index > ARRAY_SIZE(lookup) - 1] does not fire and the table access is
    within 0..7, for both tables. *)
Theorem unit_index_in_bounds f us :
  well_formed_field f = true ->
  List.length us = 4%nat -> nth 3 us NUL = NUL ->
  let timer_str := memcpy (repeat NUL 9) (list_ascii_of_string f) 8 in
  let index := strtoul (memcpy us timer_str 3) 2 in
  0 <= index <= ARRAY_SIZE t3412_lookup - 1
  /\ 0 <= index <= ARRAY_SIZE t3324_lookup - 1
  /\ (exists v, snd (decode_timer t3412_lookup timer_str us 3) = inr v)
  /\ (exists v, snd (decode_timer t3324_lookup timer_str us 3) = inr v).
Proof.
  intros Hf Hus Hnul.
  destruct (well_formed_field_parts f Hf) as [L N].
  assert (Hts : memcpy (repeat NUL 9) (list_ascii_of_string f) 8
                = list_ascii_of_string f ++ repeat NUL 1).
  { unfold memcpy; rewrite firstn_all2 by (rewrite string_length_list; lia).
    reflexivity. }
  rewrite Hts; cbv zeta.
  destruct tables_ok as [T1 T2].
  assert (Lf : (List.length (list_ascii_of_string f) <= 8)%nat)
    by (rewrite string_length_list; lia).
  destruct (decode_timer_lenient t3412_lookup _ 0 us T1 N Lf Hus Hnul)
    as (Hu & _ & D1).
  destruct (decode_timer_lenient t3324_lookup _ 0 us T2 N Lf Hus Hnul)
    as (_ & _ & D2).
  assert (E : strtoul (memcpy us (list_ascii_of_string f ++ repeat NUL 1) 3) 2
              = strtoul (firstn 3 (list_ascii_of_string f)) 2).
  { unfold memcpy; rewrite (unit_str_tail us Hus Hnul), strtoul_NUL.
    rewrite firstn_app.
    destruct (firstn_repeat_NUL
                (3 - List.length (list_ascii_of_string f)) 1) as [j ->].
    apply strtoul_repeat_NUL. }
  rewrite E, D1, D2.
  change (ARRAY_SIZE t3412_lookup - 1) with 7.
  change (ARRAY_SIZE t3324_lookup - 1) with 7.
  repeat split; try lia; eexists; reflexivity.
Qed.

Lemma unit_index_in_bounds_witness :
  well_formed_field "11101010" = true
  /\ 0 <= strtoul (memcpy (repeat NUL 4)
                     (memcpy (repeat NUL 9)
                        (list_ascii_of_string "11101010") 8) 3) 2
       <= ARRAY_SIZE t3412_lookup - 1.
Proof.
  split; [reflexivity|].
  exact (proj1 (unit_index_in_bounds "11101010" (repeat NUL 4)
                  eq_refl eq_refl eq_refl)).
Defined.

Lemma decode_timer_inl lookup ts us n us' e :
  decode_timer lookup ts us n = (us', inl e) -> e = - EINVAL.
Proof.
  unfold decode_timer.
  destruct (strtoul (memcpy us ts n) 2 >? ARRAY_SIZE lookup - 1);
    intros H; inversion H; reflexivity.
Qed.

(** C10. The outputs of [lte_lc_psm_get] are not written atomically: when
    the TAU field is extracted and decoded and the active-time field then
    fails to be extracted or to be decoded, the call returns an error, the
    TAU output already holds the decoded TAU value and the active-time
    output is left as it was. *)
Theorem psm_get_partial_output toks tau0 at0 ts len us v :
  at_params_string_get toks AT_CEREG_TAU_INDEX (repeat NUL 9) 8
    = (0, ts, len) ->
  decode_timer t3412_lookup ts (repeat NUL 4) 3 = (us, inr v) ->
  (fst (fst (at_params_string_get toks AT_CEREG_ACTIVE_TIME_INDEX ts len))
     <> 0
   \/ exists e ts' len' us',
        at_params_string_get toks AT_CEREG_ACTIVE_TIME_INDEX ts len
          = (0, ts', len')
        /\ decode_timer t3324_lookup ts' us 3 = (us', inl e)) ->
  let r := lte_lc_psm_get (reply_ok toks) (Some tau0) (Some at0) in
  psm_ret r <> 0 /\ psm_tau r = Some v /\ psm_active_time r = Some at0.
Proof.
  intros Hget Hdec Hact.
  unfold lte_lc_psm_get; cbn [reply_ok cereg_5_err cereg_read_err
    list_init_err parser_err at_resp_list Z.eqb negb].
  change (9 - 1)%nat with 8%nat; change (4 - 1)%nat with 3%nat.
  rewrite Hget; cbn [Z.eqb negb]; rewrite Hdec.
  destruct Hact as [Herr | (e & ts' & len' & us' & Hget' & Hdec')].
  - destruct (at_params_string_get toks AT_CEREG_ACTIVE_TIME_INDEX ts len)
      as [[e ts'] len'].
    cbn [fst] in Herr.
    destruct (e =? 0) eqn:E; [apply Z.eqb_eq in E; contradiction|].
    cbn [negb psm_ret psm_tau psm_active_time]; auto.
  - rewrite Hget'; cbn [Z.eqb negb]; rewrite Hdec'.
    cbn [psm_ret psm_tau psm_active_time].
    rewrite (decode_timer_inl _ _ _ _ _ _ Hdec').
    repeat split; discriminate.
Qed.

Lemma psm_get_partial_output_witness :
  lte_lc_psm_get (reply_ok (cereg_tokens "-1100000" "00000010"))
    (Some 7) (Some 9)
  = {| psm_ret := - EINVAL; psm_tau := Some 1200;
       psm_active_time := Some 9 |}
  /\ psm_ret (lte_lc_psm_get (reply_ok (cereg_tokens "-1100000" "00000010"))
                (Some 7) (Some 9)) <> 0.
Proof.
  split; [reflexivity|].
  refine (proj1 (psm_get_partial_output
                   (cereg_tokens "-1100000" "00000010") 7 9
                   (list_ascii_of_string "00000010" ++ [NUL]) 8
                   (list_ascii_of_string "000" ++ [NUL]) 1200
                   eq_refl eq_refl _)).
  right.
  exists (- EINVAL), (list_ascii_of_string "-1100000" ++ [NUL]), 8%nat,
         (list_ascii_of_string "-11" ++ [NUL]).
  split; reflexivity.
Defined.




(** ** The registration state machine *)

Lemma deliver_trace ns w : trace (deliver ns w) = trace w.
Proof.
  unfold deliver; destruct (notification_handler w) as [[]|]; reflexivity.
Qed.

Lemma deliver_handler ns w :
  notification_handler (deliver ns w) = notification_handler w.
Proof.
  unfold deliver; destruct (notification_handler w) as [[]|] eqn:E;
    cbn; exact E.
Qed.

Lemma k_sem_give_link_inv s : link_inv s -> link_inv (k_sem_give s).
Proof.
  unfold link_inv, k_sem_give; intros [Hl Hc].
  destruct (pended s); cbn [count limit]; [auto|].
  split; [exact Hl|].
  destruct (count s =? limit s) eqn:E; cbn [negb].
  - lia.
  - apply Z.eqb_neq in E; lia.
Qed.

Lemma at_handler_link_inv n s : link_inv s -> link_inv (at_handler n s).
Proof.
  intros H; unfold at_handler.
  destruct (at_params_string_get (urc_params n) 0 (stack_id n) 16)
    as [[e id] len].
  destruct ((0 <? len)%nat && memcmp_eq id (list_ascii_of_string "+CEREG") 6);
    [|exact H].
  match goal with
  | |- context [if ?b then _ else _] => destruct b
  end; [apply k_sem_give_link_inv|]; exact H.
Qed.

Lemma fold_at_handler_link_inv ns : forall s,
  link_inv s -> link_inv (fold_left (fun l n => at_handler n l) ns s).
Proof.
  induction ns as [|n ns IH]; intros s H; [exact H|].
  apply IH, at_handler_link_inv, H.
Qed.

Lemma deliver_link_inv ns w :
  link_inv (link w) -> link_inv (link (deliver ns w)).
Proof.
  unfold deliver; destruct (notification_handler w) as [[]|]; [|auto].
  cbn [set_link link]; apply fold_at_handler_link_inv.
Qed.

Lemma extends_trans w w1 w2 e1 e2 :
  extends w w1 e1 -> extends w1 w2 e2 -> extends w w2 (e1 ++ e2).
Proof.
  intros (T1 & H1 & L1) (T2 & H2 & L2); split; [|split].
  - rewrite T2, T1, app_assoc; reflexivity.
  - congruence.
  - auto.
Qed.

Lemma at_cmd_write_run env c w r w' :
  at_cmd_write env c w = (r, w') -> extends w w' [Ev_write c r].
Proof.
  unfold at_cmd_write; intros H; inversion H; subst; clear H.
  split; [|split]; cbn [log trace notification_handler link].
  - rewrite deliver_trace; reflexivity.
  - apply deliver_handler.
  - apply deliver_link_inv.
Qed.

Lemma k_sem_take_link_run env t w e w' :
  k_sem_take_link env t w = (e, w') -> extends w w' [Ev_take e].
Proof.
  unfold k_sem_take_link.
  destruct (0 <? count (link w)) eqn:C.
  - intros H; inversion H; subst; clear H.
    apply Z.ltb_lt in C.
    split; [|split]; cbn [log trace notification_handler link].
    + rewrite deliver_trace; reflexivity.
    + rewrite deliver_handler; reflexivity.
    + intros [Hl Hc]; apply deliver_link_inv.
      cbn [set_link link]; split; cbn [limit count]; lia.
  - destruct (t =? K_NO_WAIT).
    + intros H; inversion H; subst; clear H.
      split; [|split]; cbn [log trace notification_handler link].
      * rewrite deliver_trace; reflexivity.
      * apply deliver_handler.
      * apply deliver_link_inv.
    + match goal with
      | |- context [deliver ?ns ?w0] => set (wd := deliver ns w0)
      end.
      assert (Hd : trace wd = trace w
                   /\ notification_handler wd = notification_handler w
                   /\ (link_inv (link w) -> link_inv (link wd))).
      { unfold wd; rewrite deliver_trace, deliver_handler.
        split; [reflexivity|split; [reflexivity|]].
        intros [Hl Hc]; apply deliver_link_inv.
        cbn [set_link link]; split; cbn [limit count]; lia. }
      destruct Hd as (Td & Hd & Ld).
      destruct (pended (link wd)); intros H; inversion H; subst; clear H;
        (split; [|split]);
        cbn [log set_link trace notification_handler link];
        solve [congruence | exact Ld].
Qed.

(** One round of the loop ends in one of the six ways of
    [round_outcome]. *)
Lemma connect_round_outcome cfg env mode w :
  exists evs,
    round_outcome cfg mode evs (fst (connect_round cfg env mode w))
    /\ extends w (snd (connect_round cfg env mode w)) evs.
Proof.
  unfold connect_round, bind.
  destruct (at_cmd_write env mode w) as [r0 w0] eqn:E0.
  apply at_cmd_write_run in E0.
  destruct (r0 =? 0) eqn:T0; cbn [negb ret fst snd];
    [apply Z.eqb_eq in T0; subst r0
    |apply Z.eqb_neq in T0; eexists; split; [constructor; exact T0|exact E0]].
  destruct (at_cmd_write env normal w0) as [r1 w1] eqn:E1.
  apply at_cmd_write_run in E1.
  pose proof (extends_trans _ _ _ _ _ E0 E1) as X1; cbn [app] in X1.
  destruct (r1 =? 0) eqn:T1; cbn [negb ret fst snd];
    [apply Z.eqb_eq in T1; subst r1
    |apply Z.eqb_neq in T1; eexists; split; [constructor; exact T1|exact X1]].
  destruct (k_sem_take_link env _ w1) as [e w2] eqn:E2.
  apply k_sem_take_link_run in E2.
  pose proof (extends_trans _ _ _ _ _ X1 E2) as X2; cbn [app] in X2.
  destruct (e =? - EAGAIN) eqn:T2;
    [apply Z.eqb_eq in T2; subst e
    |apply Z.eqb_neq in T2; cbn [ret fst snd]; eexists; split;
       [apply Round_wait_over; exact T2|exact X2]].
  destruct (CONFIG_LTE_NETWORK_USE_FALLBACK cfg
            && at_cmd_eqb mode nw_mode_preferred) eqn:F;
    [|cbn [ret fst snd]; eexists; split;
        [apply Round_timed_out; exact F|exact X2]].
  destruct (at_cmd_write env offline w2) as [r3 w3] eqn:E3.
  apply at_cmd_write_run in E3.
  pose proof (extends_trans _ _ _ _ _ X2 E3) as X3; cbn [app] in X3.
  destruct (r3 =? 0) eqn:T3; cbn [negb ret fst snd];
    [apply Z.eqb_eq in T3; subst r3
    |apply Z.eqb_neq in T3].
  - eexists; split; [apply Round_retry; exact F|exact X3].
  - eexists; split; [apply Round_offline_failed; [exact F|exact T3]|exact X3].
Qed.

(** Two rounds are enough: the call returns, its trace is that of one of
    the outcomes, the handler is unregistered and the semaphore is in its
    range. *)
Lemma lte_lc_connect_outcome cfg env n l h :
  exists err w',
    lte_lc_connect cfg env (S (S n)) l h = (Some err, w')
    /\ connect_outcome cfg (trace w') err
    /\ notification_handler w' = None
    /\ link_inv (link w').
Proof.
  unfold lte_lc_connect, w_lte_lc_connect, bind, k_sem_init_link,
    at_cmd_set_notification_handler, modem_at_entry.
  cbn [set_link link notification_handler trace].
  set (w0 := {| link := k_sem_init 0 1;
                notification_handler := Some fn_at_handler; trace := [] |}).
  assert (I0 : link_inv (link w0)) by (split; cbn; lia).
  cbn [connect_loop]; unfold bind.
  destruct (connect_round_outcome cfg env nw_mode_preferred w0)
    as (evs1 & O1 & T1 & _ & L1).
  destruct (connect_round cfg env nw_mode_preferred w0) as [[err|mode] w1];
    cbn [fst snd] in *.
  - cbn [ret]. do 2 eexists; split; [reflexivity|].
    cbn [trace notification_handler link].
    rewrite T1; split; [apply Connect_one; exact O1|auto].
  - assert (mode = nw_mode_fallback) by (inversion O1; reflexivity); subst.
    destruct (connect_round_outcome cfg env nw_mode_fallback w1)
      as (evs2 & O2 & T2 & _ & L2).
    destruct (connect_round cfg env nw_mode_fallback w1) as [[err|mode] w2];
      cbn [fst snd] in *.
    + cbn [ret]. do 2 eexists; split; [reflexivity|].
      cbn [trace notification_handler link].
      rewrite T2, T1; split; [apply Connect_two with (1 := O1); exact O2|auto].
    + exfalso; inversion O2 as [| | | | |F];
        rewrite andb_false_r in F; discriminate.
Qed.

(** C6. On every exit path of the call (success, a failed write, a timeout
    after the last round) the call returns and the notification handler
    that it installed at the start is set back to none. *)
Theorem handler_unregistered_on_exit cfg env n l h :
  let r := lte_lc_connect cfg env (S (S n)) l h in
  (exists err, fst r = Some err) /\ notification_handler (snd r) = None.
Proof.
  destruct (lte_lc_connect_outcome cfg env n l h) as (err & w' & E & _ & H & _).
  cbv zeta; rewrite E; cbn [fst snd]; split; [exists err; reflexivity|exact H].
Qed.

(** C5. A write that fails (the mode selection, the activation or the
    offline command) ends the call at once: the call returns [-EIO] and the
    failed write is the last thing it did to the modem, so nothing is sent
    again and no further round is run. *)
Theorem write_failure_is_fatal cfg env n l h k c res :
  let r := lte_lc_connect cfg env (S (S n)) l h in
  nth_error (trace (snd r)) k = Some (Ev_write c res) -> res <> 0 ->
  fst r = Some (- EIO) /\ S k = List.length (trace (snd r)).
Proof.
  destruct (lte_lc_connect_outcome cfg env n l h) as (err & w' & E & O & _).
  cbv zeta; rewrite E; cbn [fst snd]; intros Hk Hres.
  destruct w' as [lk hd tr]; cbn [trace] in *.
  connect_cases O; try absurd_flag; cbn [app] in Hk;
    do 7 (try (destruct k as [|k]; cbn [nth_error] in Hk;
               try discriminate Hk));
    try (destruct k; discriminate Hk);
    inversion Hk; subst; try contradiction; split; reflexivity.
Qed.

Lemma write_failure_is_fatal_witness :
  fst (lte_lc_connect cfg_fallback
         {| at_cmd_result := fail_at 4; unsolicited := quiet |} 2
         (k_sem_init 0 1) None) = Some (- EIO)
  /\ 5%nat = List.length
               (trace (snd (lte_lc_connect cfg_fallback
                              {| at_cmd_result := fail_at 4;
                                 unsolicited := quiet |} 2
                              (k_sem_init 0 1) None))).
Proof.
  apply (write_failure_is_fatal cfg_fallback
           {| at_cmd_result := fail_at 4; unsolicited := quiet |} 0
           (k_sem_init 0 1) None 4 nw_mode_fallback (-1)).
  - reflexivity.
  - discriminate.
Defined.

(** C2, as stated, fails: when the offline command cannot be written after
    the first timeout, no fallback mode selection is sent at all. *)
Lemma offline_failure_skips_fallback :
  let r := lte_lc_connect cfg_fallback
             {| at_cmd_result := fail_at 3; unsolicited := quiet |} 2
             (k_sem_init 0 1) None in
  nth_error (takes (trace (snd r))) 0 = Some (- EAGAIN)
  /\ sent offline (trace (snd r)) = 1%nat
  /\ sent nw_mode_fallback (trace (snd r)) = 0%nat
  /\ fst r = Some (- EIO).
Proof. repeat split; vm_compute; reflexivity. Qed.

(** C2, amended. With the fallback enabled, a timeout of the first wait
    makes the call send the offline command exactly once. When that write
    succeeds, exactly one fallback mode selection follows it directly; when
    it fails the call returns [-EIO] and sends nothing more. A second
    timeout makes the call return [-ETIMEDOUT] with no further offline or
    mode-selection command. The preferred and the fallback mode are each
    selected at most once in a call. *)
Theorem fallback_at_most_once cfg env n l h :
  CONFIG_LTE_NETWORK_USE_FALLBACK cfg = true ->
  let r := lte_lc_connect cfg env (S (S n)) l h in
  let tr := trace (snd r) in
  nth_error (takes tr) 0 = Some (- EAGAIN) ->
  sent offline tr = 1%nat
  /\ sent nw_mode_preferred tr = 1%nat
  /\ (sent nw_mode_fallback tr <= 1)%nat
  /\ (exists r3,
        firstn 4 tr = [Ev_write nw_mode_preferred 0; Ev_write normal 0;
                       Ev_take (- EAGAIN); Ev_write offline r3]
        /\ (r3 = 0 ->
            sent nw_mode_fallback tr = 1%nat
            /\ exists r4, nth_error tr 4 = Some (Ev_write nw_mode_fallback r4))
        /\ (r3 <> 0 -> List.length tr = 4%nat /\ fst r = Some (- EIO)))
  /\ (nth_error (takes tr) 1 = Some (- EAGAIN) ->
      fst r = Some (- ETIMEDOUT)
      /\ tr = [Ev_write nw_mode_preferred 0; Ev_write normal 0;
               Ev_take (- EAGAIN); Ev_write offline 0;
               Ev_write nw_mode_fallback 0; Ev_write normal 0;
               Ev_take (- EAGAIN)]).
Proof.
  intros Hfb.
  destruct (lte_lc_connect_outcome cfg env n l h) as (err & w' & E & O & _).
  cbv zeta; rewrite E; cbn [fst snd]; intros Ht.
  destruct w' as [lk hd tr]; cbn [trace] in *.
  connect_cases O; try absurd_flag; cbn in Ht; try discriminate Ht;
    try (injection Ht as Ht; exfalso; auto; fail);
    cbn [app];
    (split; [reflexivity|]); (split; [reflexivity|]);
    (split; [cbn; lia|]); split.
  all: try (eexists; split; [reflexivity|]; split; intros Hr;
            first [ solve [exfalso; auto]
                  | solve [split; [reflexivity|eexists; reflexivity]]
                  | solve [split; reflexivity] ]).
  all: cbn; intros Hsnd; try discriminate Hsnd;
    first [ solve [injection Hsnd as Hsnd; exfalso; auto]
          | split; reflexivity ].
Qed.

Lemma fallback_at_most_once_witness :
  let r := lte_lc_connect cfg_fallback
             {| at_cmd_result := all_ok; unsolicited := quiet |} 2
             (k_sem_init 0 1) None in
  nth_error (takes (trace (snd r))) 0 = Some (- EAGAIN)
  /\ sent offline (trace (snd r)) = 1%nat
  /\ sent nw_mode_fallback (trace (snd r)) = 1%nat
  /\ fst r = Some (- ETIMEDOUT).
Proof.
  cbv zeta.
  pose proof (fallback_at_most_once cfg_fallback
                {| at_cmd_result := all_ok; unsolicited := quiet |} 0
                (k_sem_init 0 1) None eq_refl eq_refl)
    as (H1 & _ & _ & (r3 & H3 & H4 & _) & H5).
  split; [reflexivity|]. split; [exact H1|].
  split; [|exact (proj1 (H5 eq_refl))].
  injection H3 as H3; exact (proj1 (H4 (eq_sym H3))).
Defined.

(** ** The semaphore and the notification listener *)

Lemma iter_give k :
  let s := Nat.iter k k_sem_give (k_sem_init 0 1) in
  pended s = false /\ limit s = 1 /\ count s = Z.min (Z.of_nat k) 1.
Proof.
  induction k as [|k IH]; [repeat split|].
  cbv zeta in *.
  change (Nat.iter (S k) k_sem_give (k_sem_init 0 1))
    with (k_sem_give (Nat.iter k k_sem_give (k_sem_init 0 1))).
  destruct (Nat.iter k k_sem_give (k_sem_init 0 1)) as [c lim p].
  cbn [pended limit count] in IH; destruct IH as (P & L & C); subst.
  unfold k_sem_give; cbn [pended limit count].
  split; [reflexivity|split; [reflexivity|]].
  destruct (Z.min (Z.of_nat k) 1 =? 1) eqn:E;
    [apply Z.eqb_eq in E|apply Z.eqb_neq in E]; cbn [negb]; lia.
Qed.

(** C7. The semaphore that links the listener to the call coalesces its
    signals: initialised with count 0 and limit 1, it never holds more than
    one pending signal, whatever lines the listener is given, however often
    it is given, and at the end of every call. *)
Theorem link_signals_coalesce :
  (forall ns,
      let s := fold_left (fun l n => at_handler n l) ns (k_sem_init 0 1) in
      limit s = 1 /\ 0 <= count s <= 1)
  /\ (forall k,
         count (Nat.iter k k_sem_give (k_sem_init 0 1))
         = Z.min (Z.of_nat k) 1)
  /\ (forall cfg env n l h,
         let s := link (snd (lte_lc_connect cfg env (S (S n)) l h)) in
         limit s = 1 /\ 0 <= count s <= 1).
Proof.
  split; [|split].
  - intros ns; apply fold_at_handler_link_inv; split; cbn; lia.
  - intros k; apply (iter_give k).
  - intros cfg env n l h.
    destruct (lte_lc_connect_outcome cfg env n l h)
      as (err & w' & E & _ & _ & I).
    cbv zeta; rewrite E; exact I.
Qed.

Lemma K_SECONDS_no_wait t :
  K_SECONDS t = K_NO_WAIT <-> t mod 536870912 = 0.
Proof.
  unfold K_SECONDS, K_NO_WAIT, to_int, to_u32.
  rewrite Z.mod_mod by lia.
  pose proof (Z.mod_pos_bound (t * 1000) (2 ^ 32) ltac:(lia)) as B.
  assert (E : (t * 1000) mod 2 ^ 32 = 0 <-> t mod 536870912 = 0).
  { rewrite !Z.mod_divide by lia; split; intros D.
    - apply Z.gauss with 125; [|reflexivity].
      change (2 ^ 32) with (8 * 536870912) in D.
      replace (t * 1000) with (8 * (125 * t)) in D by lia.
      apply Z.mul_divide_cancel_l in D; [exact D|lia].
    - destruct D as [q ->]; exists (q * 125).
      change (2 ^ 32) with (536870912 * 8); lia. }
  destruct ((t * 1000) mod 2 ^ 32 <? 2 ^ 31) eqn:L;
    [|apply Z.ltb_ge in L]; rewrite <- E;
    change (2 ^ 32) with 4294967296 in *;
    change (2 ^ 31) with 2147483648 in *; lia.
Qed.

(** The listener passes over the lines of [ignorable]. *)
Lemma at_handler_ignorable x l : ignorable x = true -> at_handler x l = l.
Proof.
  unfold ignorable; intros H; apply orb_true_iff in H as [H|H].
  - destruct (nth_error (urc_params x) 0) as [[| | |s]|] eqn:H0;
      try discriminate H.
    apply andb_true_iff in H as [H16 H].
    apply Nat.leb_le in H16.
    unfold at_handler.
    rewrite (string_get_ok _ _ _ _ _ H0) by lia.
    apply orb_true_iff in H as [H|H].
    + apply Nat.eqb_eq in H; rewrite H; reflexivity.
    + apply negb_true_iff in H.
      destruct (memcmp_eq
                  (list_ascii_of_string s
                   ++ skipn (String.length s) (stack_id x))
                  (list_ascii_of_string "+CEREG") 6) eqn:M;
        [|cbv beta iota; rewrite andb_false_r; reflexivity].
      exfalso; unfold memcmp_eq in *.
      destruct (list_eq_dec ascii_dec
                  (firstn 6 (list_ascii_of_string s
                             ++ skipn (String.length s) (stack_id x)))
                  (firstn 6 (list_ascii_of_string "+CEREG"))) as [E|E];
        [clear M|discriminate M].
      apply (f_equal (firstn (Nat.min 6 (String.length s)))) in E.
      rewrite !firstn_firstn in E.
      replace (Nat.min (Nat.min 6 (String.length s)) 6)
        with (Nat.min 6 (String.length s)) in E by lia.
      rewrite firstn_app, string_length_list in E.
      replace (Nat.min 6 (String.length s) - String.length s)%nat
        with 0%nat in E by lia.
      rewrite firstn_O, app_nil_r in E.
      destruct (list_eq_dec ascii_dec
                  (firstn (Nat.min 6 (String.length s))
                     (list_ascii_of_string s))
                  (firstn (Nat.min 6 (String.length s))
                     (list_ascii_of_string "+CEREG"))) as [E'|E'];
        [discriminate H|exact (E' E)].
  - destruct (at_params_int_get (urc_params x) 1) as [v|] eqn:Hv;
      [|discriminate H].
    apply negb_true_iff in H.
    unfold at_handler.
    destruct (at_params_string_get (urc_params x) 0 (stack_id x) 16)
      as [[e id] len].
    destruct ((0 <? len)%nat
              && memcmp_eq id (list_ascii_of_string "+CEREG") 6);
      [|reflexivity].
    rewrite Hv, H; reflexivity.
Qed.

Lemma deliver_ignorable ns w :
  (forall x, In x ns -> ignorable x = true) -> deliver ns w = w.
Proof.
  intros H; unfold deliver.
  destruct (notification_handler w) as [[]|]; [|reflexivity].
  assert (F : forall s, fold_left (fun l n => at_handler n l) ns s = s).
  { induction ns as [|n ns IH]; intros s; [reflexivity|].
    cbn [fold_left]; rewrite at_handler_ignorable by (apply H; left; reflexivity).
    apply IH; intros x Hx; apply H; right; exact Hx. }
  rewrite F; destruct w; reflexivity.
Qed.

(** A property of the modem that the two calls into the environment keep
    is kept by a round, by the loop and by the whole call. *)
Lemma connect_round_inv cfg env (P : modem -> Prop) mode w :
  (forall c w, P w -> P (snd (at_cmd_write env c w))) ->
  (forall w, P w ->
     P (snd (k_sem_take_link env
               (K_SECONDS (CONFIG_LTE_NETWORK_TIMEOUT cfg)) w))) ->
  P w -> P (snd (connect_round cfg env mode w)).
Proof.
  intros Hw Ht H; unfold connect_round, bind.
  pose proof (Hw mode w H) as H0.
  destruct (at_cmd_write env mode w) as [r0 w0]; cbn [snd] in H0.
  destruct (negb (r0 =? 0)); [exact H0|].
  pose proof (Hw normal w0 H0) as H1.
  destruct (at_cmd_write env normal w0) as [r1 w1]; cbn [snd] in H1.
  destruct (negb (r1 =? 0)); [exact H1|].
  pose proof (Ht w1 H1) as H2.
  destruct (k_sem_take_link env _ w1) as [e w2]; cbn [snd] in H2.
  destruct (e =? - EAGAIN); [|exact H2].
  destruct (CONFIG_LTE_NETWORK_USE_FALLBACK cfg
            && at_cmd_eqb mode nw_mode_preferred); [|exact H2].
  pose proof (Hw offline w2 H2) as H3.
  destruct (at_cmd_write env offline w2) as [r3 w3]; cbn [snd] in H3.
  destruct (negb (r3 =? 0)); exact H3.
Qed.

Lemma connect_loop_inv cfg env (P : modem -> Prop) :
  (forall c w, P w -> P (snd (at_cmd_write env c w))) ->
  (forall w, P w ->
     P (snd (k_sem_take_link env
               (K_SECONDS (CONFIG_LTE_NETWORK_TIMEOUT cfg)) w))) ->
  forall fuel mode w, P w -> P (snd (connect_loop cfg env fuel mode w)).
Proof.
  intros Hw Ht; induction fuel as [|fuel IH]; intros mode w H;
    [exact H|].
  cbn [connect_loop]; unfold bind.
  pose proof (connect_round_inv cfg env P mode w Hw Ht H) as H1.
  destruct (connect_round cfg env mode w) as [[err|mode'] w1];
    cbn [snd] in H1; [exact H1|].
  apply IH; exact H1.
Qed.

Lemma lte_lc_connect_inv cfg env (Q : k_sem -> list event -> Prop) :
  (forall c w, Q (link w) (trace w) ->
     Q (link (snd (at_cmd_write env c w)))
       (trace (snd (at_cmd_write env c w)))) ->
  (forall w, Q (link w) (trace w) ->
     let w' := snd (k_sem_take_link env
                      (K_SECONDS (CONFIG_LTE_NETWORK_TIMEOUT cfg)) w) in
     Q (link w') (trace w')) ->
  Q (k_sem_init 0 1) [] ->
  forall fuel l h,
    Q (link (snd (lte_lc_connect cfg env fuel l h)))
      (trace (snd (lte_lc_connect cfg env fuel l h))).
Proof.
  intros Hw Ht H0 fuel l h.
  unfold lte_lc_connect, w_lte_lc_connect, bind, k_sem_init_link,
    at_cmd_set_notification_handler, modem_at_entry.
  cbn [set_link link notification_handler trace].
  match goal with
  | |- context [connect_loop cfg env fuel nw_mode_preferred ?w0] =>
      pose proof (connect_loop_inv cfg env
                    (fun m => Q (link m) (trace m)) Hw Ht
                    fuel nw_mode_preferred w0 H0) as H1;
      destruct (connect_loop cfg env fuel nw_mode_preferred w0) as [[err|] w1]
  end; exact H1.
Qed.

Lemma unsignalled_write cfg env c w :
  all_ignorable env ->
  unsignalled cfg env (link w) (trace w) ->
  unsignalled cfg env (link (snd (at_cmd_write env c w)))
    (trace (snd (at_cmd_write env c w))).
Proof.
  intros Hq (L & T & W); unfold at_cmd_write; cbn [snd].
  rewrite deliver_ignorable by (apply Hq).
  cbn [log link trace]; split; [exact L|split].
  - intros e He; apply in_app_or in He as [He|[He|[]]];
      [auto|discriminate He].
  - intros c' r He; apply in_app_or in He as [He|[He|[]]];
      [eauto|].
    injection He as _ <-; eexists; reflexivity.
Qed.

Lemma unsignalled_take cfg env w :
  all_ignorable env ->
  unsignalled cfg env (link w) (trace w) ->
  let w' := snd (k_sem_take_link env
                   (K_SECONDS (CONFIG_LTE_NETWORK_TIMEOUT cfg)) w) in
  unsignalled cfg env (link w') (trace w').
Proof.
  intros Hq (L & T & W); cbv zeta; unfold k_sem_take_link.
  rewrite L; cbn [k_sem_init count limit Z.ltb Z.compare].
  rewrite !deliver_ignorable by (apply Hq).
  unfold unsignalled.
  destruct (K_SECONDS (CONFIG_LTE_NETWORK_TIMEOUT cfg) =? K_NO_WAIT) eqn:K;
    cbn [snd set_link log link trace pended].
  - split; [exact L|split].
    + intros e He; apply in_app_or in He as [He|[He|[]]];
        [exact (T e He)|injection He as <-; reflexivity].
    + intros c r He; apply in_app_or in He as [He|[He|[]]];
        [eauto|discriminate He].
  - split; [reflexivity|split].
    + intros e He; apply in_app_or in He as [He|[He|[]]];
        [exact (T e He)|injection He as <-; reflexivity].
    + intros c r He; apply in_app_or in He as [He|[He|[]]];
        [eauto|discriminate He].
Qed.

(** C4, as stated, fails. The listener compares the first 6 bytes of [id]
    and never looks at the length of the token beyond [len > 0]: a line
    whose identifier is +CEREGX, with status 1, gives the semaphore and
    ends the wait of the call, and so does a truncated identifier +CER when
    the bytes that follow it in the uninitialised [id] are EG. And when no
    line arrives at all, a call whose timeout wraps to 0 milliseconds does
    not time out: its wait returns [-EBUSY] at once. *)
Lemma longer_identifier_signals :
  at_handler (urc [AT_PARAM_STRING "+CEREGX"; AT_PARAM_NUM_SHORT 1])
    (k_sem_init 0 1)
  = {| count := 1; limit := 1; pended := false |}
  /\ lte_lc_connect cfg_no_fallback
       {| at_cmd_result := all_ok;
          unsolicited := fun i =>
            if (i =? 2)%nat
            then [urc [AT_PARAM_STRING "+CEREGX"; AT_PARAM_NUM_SHORT 1]]
            else [] |} 2 (k_sem_init 0 1) None
     = (Some 0,
        {| link := k_sem_init 0 1; notification_handler := None;
           trace := [Ev_write nw_mode_preferred 0; Ev_write normal 0;
                     Ev_take 0] |})
  /\ at_handler
       {| urc_params := [AT_PARAM_STRING "+CER"; AT_PARAM_NUM_SHORT 1];
          stack_id := list_ascii_of_string "+CEREG" ++ repeat NUL 10;
          stack_val := 0 |}
       (k_sem_init 0 1)
     = {| count := 1; limit := 1; pended := false |}
  /\ lte_lc_connect cfg_wrapped_timeout
       {| at_cmd_result := all_ok; unsolicited := quiet |} 2
       (k_sem_init 0 1) None
     = (Some (- EBUSY),
        {| link := k_sem_init 0 1; notification_handler := None;
           trace := [Ev_write nw_mode_preferred 0; Ev_write normal 0;
                     Ev_take (- EBUSY)] |}).
Proof. repeat split; vm_compute; reflexivity. Qed.

(** The listener reads [val] whether or not a status was stored to it: a
    line +CEREG without a status gives the semaphore when the uninitialised
    [val] holds 5. *)
Lemma missing_status_reads_stack id l :
  at_handler {| urc_params := [AT_PARAM_STRING "+CEREG"];
                stack_id := id; stack_val := 5 |} l
  = k_sem_give l.
Proof. reflexivity. Qed.

(** An identifier of more than 16 characters is not copied to [id] at all:
    the listener then compares what the uninitialised [id] holds. *)
Lemma long_identifier_reads_stack val l :
  at_handler {| urc_params := [AT_PARAM_STRING "+ABCDEFGHIJKLMNOP";
                               AT_PARAM_NUM_SHORT 1];
                stack_id := list_ascii_of_string "+CEREG" ++ repeat NUL 10;
                stack_val := val |} l
  = k_sem_give l.
Proof. reflexivity. Qed.

(** C4, amended. A line whose identifier token, of at most 16 characters,
    is empty or differs from +CEREG at one of its own first 6 characters,
    or whose status is an integer other than 1 and 5, never signals the
    waiter. When all lines that arrive during a call are of this kind, no
    wait of the call is ended by a signal and the call does not succeed:
    with all writes succeeding it returns [-ETIMEDOUT], unless the timeout
    that reaches [k_sem_take], [K_SECONDS] of the configured seconds in 32
    bits, is 0, in which case it returns [-EBUSY]. *)
Theorem unregistered_lines_ignored cfg env n l h :
  all_ignorable env ->
  let r := lte_lc_connect cfg env (S (S n)) l h in
  (forall i x s, In x (unsolicited env i) -> at_handler x s = s)
  /\ (forall e, In (Ev_take e) (trace (snd r)) ->
        e = - EAGAIN \/ e = - EBUSY)
  /\ (exists err, fst r = Some err /\ err <> 0)
  /\ ((forall i, at_cmd_result env i = 0) ->
      K_SECONDS (CONFIG_LTE_NETWORK_TIMEOUT cfg) <> K_NO_WAIT ->
      fst r = Some (- ETIMEDOUT))
  /\ ((forall i, at_cmd_result env i = 0) ->
      K_SECONDS (CONFIG_LTE_NETWORK_TIMEOUT cfg) = K_NO_WAIT ->
      fst r = Some (- EBUSY)).
Proof.
  intros Hq; cbv zeta.
  pose proof (lte_lc_connect_inv cfg env (unsignalled cfg env)
                (fun c w => unsignalled_write cfg env c w Hq)
                (fun w => unsignalled_take cfg env w Hq)) as Hinv.
  specialize (Hinv ltac:(split; [reflexivity
                                |split; [intros ? []|intros ? ? []]])
                (S (S n)) l h).
  destruct Hinv as (_ & T & W).
  destruct (lte_lc_connect_outcome cfg env n l h) as (err & w' & E & O & _).
  rewrite E in *; cbn [fst snd] in *.
  assert (T' : forall e, In (Ev_take e) (trace w') ->
                 e = - EAGAIN \/ e = - EBUSY).
  { intros e He; rewrite (T e He).
    destruct (K_SECONDS (CONFIG_LTE_NETWORK_TIMEOUT cfg) =? K_NO_WAIT); auto. }
  split; [intros i x s Hx; apply at_handler_ignorable, (Hq i x Hx)|].
  split; [exact T'|].
  destruct w' as [lk hd tr]; cbn [trace] in *.
  assert (W' : (forall i, at_cmd_result env i = 0) ->
               forall c r, In (Ev_write c r) tr -> r = 0).
  { intros Hall c r Hr; destruct (W c r Hr) as [i ->]; apply Hall. }
  split; [|split].
  - exists err; split; [reflexivity|].
    connect_cases O; try discriminate;
      match goal with
      | |- ?e <> 0 =>
          destruct (T' e ltac:(cbn; tauto)) as [-> | ->]; discriminate
      end.
  - intros Hall Ht.
    apply Z.eqb_neq in Ht; rewrite Ht in T.
    specialize (W' Hall).
    connect_cases O; try reflexivity; exfalso;
      match goal with
      | H : ?r <> 0 |- _ => solve [apply H; eapply W'; cbn; eauto 10]
      | H : ?e <> - EAGAIN |- _ => solve [apply H, T; cbn; tauto]
      end.
  - intros Hall Ht.
    apply Z.eqb_eq in Ht; rewrite Ht in T.
    specialize (W' Hall).
    assert (NoA : ~ In (Ev_take (- EAGAIN)) tr).
    { intros Hin; specialize (T _ Hin); discriminate T. }
    connect_cases O;
      try (exfalso; apply NoA; cbn; tauto);
      try (exfalso;
           match goal with
           | H : ?r <> 0 |- _ => solve [apply H; eapply W'; cbn; eauto 10]
           end);
      match goal with
      | |- Some ?e = _ => rewrite (T e ltac:(cbn; tauto)); reflexivity
      end.
Qed.

Lemma unregistered_lines_ignored_witness :
  fst (lte_lc_connect cfg_no_fallback
         {| at_cmd_result := all_ok;
            unsolicited := fun i =>
              [urc [AT_PARAM_STRING "+CEREG"; AT_PARAM_NUM_SHORT 2];
               urc [AT_PARAM_STRING "%XSIM"; AT_PARAM_NUM_SHORT 1];
               urc [AT_PARAM_STRING "%CESQ"; AT_PARAM_NUM_SHORT 58;
                    AT_PARAM_NUM_SHORT 1]] |} 2 (k_sem_init 0 1) None)
  = Some (- ETIMEDOUT).
Proof.
  refine (proj1 (proj2 (proj2 (proj2
            (unregistered_lines_ignored cfg_no_fallback
               {| at_cmd_result := all_ok;
                  unsolicited := fun i =>
                    [urc [AT_PARAM_STRING "+CEREG"; AT_PARAM_NUM_SHORT 2];
                     urc [AT_PARAM_STRING "%XSIM"; AT_PARAM_NUM_SHORT 1];
                     urc [AT_PARAM_STRING "%CESQ"; AT_PARAM_NUM_SHORT 58;
                          AT_PARAM_NUM_SHORT 1]] |} 0 (k_sem_init 0 1) None
               _)))) _ _).
  - intros i x [<- | [<- | [<- | []]]]; reflexivity.
  - intros i; reflexivity.
  - vm_compute; discriminate.
Defined.

(** * Further properties of the driver *)

(** ** lte_lc_psm_get: errors and the shared buffer *)

Lemma string_get_inv toks i buf len ts len' :
  at_params_string_get toks i buf len = (0, ts, len') ->
  exists s, nth_error toks i = Some (AT_PARAM_STRING s)
            /\ (String.length s <= len)%nat /\ len' = String.length s
            /\ ts = list_ascii_of_string s ++ skipn (String.length s) buf.
Proof.
  intros H; pose proof H as H'; revert H'.
  unfold at_params_string_get.
  destruct (nth_error toks i) as [[| | |s]|] eqn:E; try discriminate.
  rewrite string_length_list.
  destruct (len <? String.length s)%nat eqn:L; [discriminate|].
  apply Nat.ltb_ge in L; intros _.
  rewrite (string_get_ok _ _ _ _ _ E L) in H.
  exists s; inversion H; auto.
Qed.

(** X1. The steps before the decoding fail in order and verbatim: with a
    NULL argument the call returns [-EINVAL]; otherwise the first of the
    two commands, the list set-up and the parser to return a non-zero code
    decides, its code is the return value as it is (not [-EIO]) and no
    output is written. *)
Theorem psm_get_first_failure io tau active_time :
  (tau = None \/ active_time = None ->
   lte_lc_psm_get io tau active_time
   = {| psm_ret := - EINVAL; psm_tau := tau;
        psm_active_time := active_time |})
  /\ (forall tau0 at0 e,
         tau = Some tau0 -> active_time = Some at0 ->
         find (fun e => negb (e =? 0))
           [cereg_5_err io; cereg_read_err io; list_init_err io;
            parser_err io] = Some e ->
         lte_lc_psm_get io tau active_time
         = {| psm_ret := e; psm_tau := tau;
              psm_active_time := active_time |}).
Proof.
  split.
  - intros [-> | ->]; [reflexivity|destruct tau; reflexivity].
  - intros tau0 at0 e -> -> H; unfold lte_lc_psm_get; cbn [find] in H.
    destruct (negb (cereg_5_err io =? 0)); [congruence|].
    destruct (negb (cereg_read_err io =? 0)); [congruence|].
    destruct (negb (list_init_err io =? 0)); [congruence|].
    destruct (negb (parser_err io =? 0)); [congruence|discriminate].
Qed.

Lemma psm_get_first_failure_witness :
  lte_lc_psm_get
    {| cereg_5_err := 0; cereg_read_err := -7; list_init_err := 0;
       parser_err := -22;
       at_resp_list := cereg_tokens "00100101" "00000010" |}
    (Some 1) (Some 2)
  = {| psm_ret := -7; psm_tau := Some 1; psm_active_time := Some 2 |}.
Proof.
  exact (proj2 (psm_get_first_failure
                  {| cereg_5_err := 0; cereg_read_err := -7;
                     list_init_err := 0; parser_err := -22;
                     at_resp_list := cereg_tokens "00100101" "00000010" |}
                  (Some 1) (Some 2))
           1 2 (-7) eq_refl eq_refl eq_refl).
Defined.

(** X2. The active-time output is written only by a call that returns 0,
    and a call returns 0 only when all steps before the decoding returned
    0, fields 9 and 8 are string tokens, the TAU field has at most 8
    characters and the active-time field is no longer than the TAU field
    (the length that the first extraction returns is the space offered to
    the second). *)
Theorem psm_get_success_needs io tau0 at0 :
  let r := lte_lc_psm_get io (Some tau0) (Some at0) in
  (psm_ret r <> 0 -> psm_active_time r = Some at0)
  /\ (psm_ret r = 0 ->
      cereg_5_err io = 0 /\ cereg_read_err io = 0
      /\ list_init_err io = 0 /\ parser_err io = 0
      /\ exists s a,
           nth_error (at_resp_list io) AT_CEREG_TAU_INDEX
             = Some (AT_PARAM_STRING s)
           /\ nth_error (at_resp_list io) AT_CEREG_ACTIVE_TIME_INDEX
                = Some (AT_PARAM_STRING a)
           /\ (String.length a <= String.length s <= 8)%nat).
Proof.
  cbv zeta; unfold lte_lc_psm_get.
  change (9 - 1)%nat with 8%nat; change (4 - 1)%nat with 3%nat.
  destruct (cereg_5_err io =? 0) eqn:E1; cbn [negb];
    [apply Z.eqb_eq in E1|apply Z.eqb_neq in E1; cbn; tauto].
  destruct (cereg_read_err io =? 0) eqn:E2; cbn [negb];
    [apply Z.eqb_eq in E2|apply Z.eqb_neq in E2; cbn; tauto].
  destruct (list_init_err io =? 0) eqn:E3; cbn [negb];
    [apply Z.eqb_eq in E3|apply Z.eqb_neq in E3; cbn; tauto].
  destruct (parser_err io =? 0) eqn:E4; cbn [negb];
    [apply Z.eqb_eq in E4|apply Z.eqb_neq in E4; cbn; tauto].
  destruct (at_params_string_get (at_resp_list io) AT_CEREG_TAU_INDEX
              (repeat NUL 9) 8) as [[e ts] len] eqn:G1.
  destruct (e =? 0) eqn:E5; cbn [negb];
    [apply Z.eqb_eq in E5; subst e|apply Z.eqb_neq in E5; cbn; tauto].
  destruct (string_get_inv _ _ _ _ _ _ G1) as (s & Hs & Ls & -> & _).
  destruct (decode_timer t3412_lookup ts (repeat NUL 4) 3) as [us [e|v]] eqn:D1.
  { rewrite (decode_timer_inl _ _ _ _ _ _ D1); cbn; split; [auto|discriminate]. }
  destruct (at_params_string_get (at_resp_list io) AT_CEREG_ACTIVE_TIME_INDEX
              ts (String.length s)) as [[e ts'] len'] eqn:G2.
  destruct (e =? 0) eqn:E6; cbn [negb];
    [apply Z.eqb_eq in E6; subst e|apply Z.eqb_neq in E6; cbn; tauto].
  destruct (string_get_inv _ _ _ _ _ _ G2) as (a & Ha & La & _ & _).
  destruct (decode_timer t3324_lookup ts' us 3) as [us' [e|v']] eqn:D2.
  { rewrite (decode_timer_inl _ _ _ _ _ _ D2); cbn; split; [auto|discriminate]. }
  cbn; split; [intros H; exfalso; apply H; reflexivity|].
  intros _; repeat (split; [assumption|]).
  exists s, a; repeat split; assumption.
Qed.

Lemma psm_get_success_needs_witness :
  psm_active_time
    (lte_lc_psm_get (reply_ok (cereg_tokens "00100101" "001"))
       (Some 1) (Some 2)) = Some 2.
Proof.
  refine (proj1 (psm_get_success_needs
                   (reply_ok (cereg_tokens "00100101" "001")) 1 2) _).
  vm_compute; discriminate.
Defined.

Lemma unit_str_after ts :
  (3 <= List.length ts)%nat ->
  List.length (firstn 3 ts ++ [NUL]) = 4%nat
  /\ nth 3 (firstn 3 ts ++ [NUL]) NUL = NUL.
Proof.
  intros H; split.
  - rewrite length_app, length_firstn; cbn [List.length]; lia.
  - rewrite app_nth2; rewrite length_firstn;
      [replace (3 - Nat.min 3 (List.length ts))%nat with 0%nat by lia;
       reflexivity|lia].
Qed.

(** X3. The buffer [timer_str] is not cleared between the two
    extractions. After a TAU field of 8 characters, an active-time field
    of [k <= 8] characters is decoded as its own characters followed by
    the characters of the TAU field from position [k] on: a 3-character
    active-time field takes its magnitude from the TAU field. *)
Theorem psm_get_short_active_time toks s a tau0 at0 :
  nth_error toks AT_CEREG_TAU_INDEX = Some (AT_PARAM_STRING s) ->
  nth_error toks AT_CEREG_ACTIVE_TIME_INDEX = Some (AT_PARAM_STRING a) ->
  String.length s = 8%nat -> (String.length a <= 8)%nat ->
  no_minus s = true -> no_minus a = true ->
  let f := list_ascii_of_string a
           ++ skipn (String.length a) (list_ascii_of_string s) in
  lte_lc_psm_get (reply_ok toks) (Some tau0) (Some at0)
  = {| psm_ret := 0;
       psm_tau :=
         Some (timer_seconds t3412_lookup
                 (strtoul (firstn 3 (list_ascii_of_string s)) 2)
                 (strtoul (skipn 3 (list_ascii_of_string s)) 2));
       psm_active_time :=
         Some (timer_seconds t3324_lookup
                 (strtoul (firstn 3 f) 2) (strtoul (skipn 3 f) 2)) |}.
Proof.
  intros H9 H8 Ls La Ms Ma f.
  unfold lte_lc_psm_get; cbn [reply_ok cereg_5_err cereg_read_err
    list_init_err parser_err at_resp_list Z.eqb negb].
  change (9 - 1)%nat with 8%nat; change (4 - 1)%nat with 3%nat.
  rewrite (string_get_ok _ _ _ _ 8%nat H9) by lia.
  rewrite Ls; change (skipn 8 (repeat NUL 9)) with (repeat NUL 1).
  cbn [Z.eqb negb].
  destruct tables_ok as [T1 T2].
  destruct (decode_timer_lenient t3412_lookup (list_ascii_of_string s)
              0 (repeat NUL 4) T1 Ms
              ltac:(rewrite string_length_list; lia) eq_refl eq_refl)
    as (_ & _ & ->).
  rewrite (string_get_ok _ _ _ _ 8%nat H8) by lia.
  rewrite skipn_app, string_length_list, Ls.
  replace (String.length a - 8)%nat with 0%nat by lia.
  change (skipn 0 (repeat NUL 1)) with (repeat NUL 1).
  rewrite app_assoc; fold f.
  cbn [Z.eqb negb].
  assert (Lf : List.length f = 8%nat).
  { unfold f; rewrite length_app, length_skipn, !string_length_list; lia. }
  assert (Mf : no_minus_chars f = true).
  { unfold f, no_minus_chars; rewrite forallb_app.
    apply andb_true_iff; split; [exact Ma|].
    apply (no_minus_chars_parts (String.length a) _ Ms). }
  destruct (unit_str_after (list_ascii_of_string s ++ repeat NUL 1)) as [L3 N3].
  { rewrite length_app, string_length_list, Ls; simpl; lia. }
  destruct (decode_timer_lenient t3324_lookup f 0 _ T2 Mf
              ltac:(lia) L3 N3) as (_ & _ & ->).
  reflexivity.
Qed.

Lemma psm_get_short_active_time_witness :
  lte_lc_psm_get (reply_ok (cereg_tokens "001" "00000010"))
    (Some 7) (Some 9)
  = {| psm_ret := 0; psm_tau := Some 1200; psm_active_time := Some 120 |}.
Proof.
  exact (psm_get_short_active_time (cereg_tokens "001" "00000010")
           "00000010" "001" 7 9 eq_refl eq_refl eq_refl
           (le_S _ _ (le_S _ _ (le_S _ _ (le_S _ _ (le_S _ _ (le_n 3))))))
           eq_refl eq_refl).
Defined.





Lemma timer_seconds_range u m :
  0 <= u <= 7 -> 0 <= m <= 31 ->
  (-1 <= timer_seconds t3412_lookup u m <= 35712000
   /\ (timer_seconds t3412_lookup u m = -1 <-> u = 7))
  /\ (-1 <= timer_seconds t3324_lookup u m <= 18600
      /\ (timer_seconds t3324_lookup u m = -1 <-> u = 7)).
Proof.
  intros Hu Hm.
  assert (u = 0 \/ u = 1 \/ u = 2 \/ u = 3 \/ u = 4 \/ u = 5 \/ u = 6
          \/ u = 7) as H by lia.
  repeat (destruct H as [-> | H]); [..|subst u];
    unfold timer_seconds; cbv zeta;
    repeat match goal with
           | |- context [nth ?n ?l 0] =>
               let v := eval vm_compute in (nth n l 0) in
               change (nth n l 0) with v
           end;
    cbn [Z.eqb]; lia.
Qed.

(** X6. Two fields of 8 characters without a minus sign decode to values of
    a fixed range: the TAU output is -1 or between 0 and 35712000 seconds,
    the active-time output is -1 or between 0 and 18600 seconds, and each
    is -1 exactly when the unit part of its field reads as 7. *)
Theorem psm_get_output_range toks s a tau0 at0 :
  nth_error toks AT_CEREG_TAU_INDEX = Some (AT_PARAM_STRING s) ->
  nth_error toks AT_CEREG_ACTIVE_TIME_INDEX = Some (AT_PARAM_STRING a) ->
  String.length s = 8%nat -> String.length a = 8%nat ->
  no_minus s = true -> no_minus a = true ->
  exists v w,
    lte_lc_psm_get (reply_ok toks) (Some tau0) (Some at0)
    = {| psm_ret := 0; psm_tau := Some v; psm_active_time := Some w |}
    /\ -1 <= v <= 35712000 /\ -1 <= w <= 18600
    /\ (v = -1 <-> strtoul (firstn 3 (list_ascii_of_string s)) 2 = 7)
    /\ (w = -1 <-> strtoul (firstn 3 (list_ascii_of_string a)) 2 = 7).
Proof.
  intros H9 H8 Ls La Ms Ma.
  rewrite (psm_get_fields toks s a tau0 at0 H9 H8 Ls La Ms Ma).
  destruct tables_ok as [T1 T2].
  destruct (decode_timer_lenient t3412_lookup (list_ascii_of_string s)
              0 (repeat NUL 4) T1 Ms
              ltac:(rewrite string_length_list; lia) eq_refl eq_refl)
    as (Us & Vs & _).
  destruct (decode_timer_lenient t3324_lookup (list_ascii_of_string a)
              0 (repeat NUL 4) T2 Ma
              ltac:(rewrite string_length_list; lia) eq_refl eq_refl)
    as (Ua & Va & _).
  destruct (timer_seconds_range _ _ Us Vs) as [[R1 I1] _].
  destruct (timer_seconds_range _ _ Ua Va) as [_ [R2 I2]].
  do 2 eexists; split; [reflexivity|]; auto.
Qed.

Lemma psm_get_output_range_witness :
  exists v w,
    lte_lc_psm_get (reply_ok (cereg_tokens "111zzzzz" "11011111"))
      (Some 0) (Some 0)
    = {| psm_ret := 0; psm_tau := Some v; psm_active_time := Some w |}
    /\ -1 <= v <= 35712000 /\ -1 <= w <= 18600.
Proof.
  destruct (psm_get_output_range (cereg_tokens "111zzzzz" "11011111")
              "11011111" "111zzzzz" 0 0
              eq_refl eq_refl eq_refl eq_refl eq_refl eq_refl)
    as (v & w & E & Rv & Rw & _).
  exists v, w; auto.
Defined.

(** ** w_lte_lc_connect: what a call can and cannot do *)

(** X7. The call returns 0 exactly when the last thing it did was a wait
    that a signal ended, and a wait that a signal ends is always the last
    event of the call: after it no command is written. *)
Theorem connect_success_by_signal cfg env n l h :
  let r := lte_lc_connect cfg env (S (S n)) l h in
  let tr := trace (snd r) in
  (fst r = Some 0 <->
   nth_error tr (pred (List.length tr)) = Some (Ev_take 0))
  /\ (forall k, nth_error tr k = Some (Ev_take 0) ->
        S k = List.length tr).
Proof.
  destruct (lte_lc_connect_outcome cfg env n l h) as (err & w' & E & O & _).
  cbv zeta; rewrite E; cbn [fst snd].
  destruct w' as [lk hd tr]; cbn [trace] in *.
  connect_cases O; try absurd_flag; cbn [app]; split;
    try (split; intros Hiff; cbn in Hiff |- *; congruence);
    intros k Hk;
    do 7 (try (destruct k as [|k]; cbn [nth_error] in Hk;
               try discriminate Hk));
    try (destruct k; discriminate Hk);
    reflexivity.
Qed.

(** X8. With the fallback disabled the call never writes the offline
    command nor the fallback mode selection; it does at most one round
    (three events, one wait), and a timeout of that wait makes it return
    [-ETIMEDOUT]. *)
Theorem no_fallback_when_disabled cfg env n l h :
  CONFIG_LTE_NETWORK_USE_FALLBACK cfg = false ->
  let r := lte_lc_connect cfg env (S (S n)) l h in
  let tr := trace (snd r) in
  sent offline tr = 0%nat /\ sent nw_mode_fallback tr = 0%nat
  /\ (List.length tr <= 3)%nat /\ (List.length (takes tr) <= 1)%nat
  /\ (nth_error (takes tr) 0 = Some (- EAGAIN) ->
      fst r = Some (- ETIMEDOUT)).
Proof.
  intros Hoff.
  destruct (lte_lc_connect_outcome cfg env n l h) as (err & w' & E & O & _).
  cbv zeta; rewrite E; cbn [fst snd].
  destruct w' as [lk hd tr]; cbn [trace] in *.
  connect_cases O; try absurd_off;
    (split; [reflexivity|]); (split; [reflexivity|]);
    (split; [cbn; lia|]); (split; [cbn; lia|]);
    cbn in *; intros Hto; congruence.
Qed.

Lemma no_fallback_when_disabled_witness :
  lte_lc_connect cfg_no_fallback
    {| at_cmd_result := all_ok; unsolicited := quiet |} 2
    (k_sem_init 1 1) None
  = (Some (- ETIMEDOUT),
     {| link := k_sem_init 0 1; notification_handler := None;
        trace := [Ev_write nw_mode_preferred 0; Ev_write normal 0;
                  Ev_take (- EAGAIN)] |})
  /\ sent nw_mode_fallback
       (trace (snd (lte_lc_connect cfg_no_fallback
                      {| at_cmd_result := all_ok; unsolicited := quiet |} 2
                      (k_sem_init 1 1) None))) = 0%nat.
Proof.
  split; [reflexivity|].
  exact (proj1 (proj2 (no_fallback_when_disabled cfg_no_fallback
                         {| at_cmd_result := all_ok; unsolicited := quiet |}
                         0 (k_sem_init 1 1) None eq_refl))).
Defined.

(** X9. The order of the commands: the first event of a call is the write
    of the preferred mode selection, which is never written again; the
    activation command is written only directly after a mode selection
    that succeeded; a wait starts only directly after an activation that
    succeeded; the offline command is written only directly after a wait
    that timed out; the fallback mode selection is written only directly
    after an offline command that succeeded. *)
Theorem connect_command_order cfg env n l h :
  let tr := trace (snd (lte_lc_connect cfg env (S (S n)) l h)) in
  (exists r, nth_error tr 0 = Some (Ev_write nw_mode_preferred r))
  /\ forall k ev, nth_error tr (S k) = Some ev ->
       match ev with
       | Ev_write nw_mode_preferred _ => False
       | Ev_write normal _ =>
           nth_error tr k = Some (Ev_write nw_mode_preferred 0)
           \/ nth_error tr k = Some (Ev_write nw_mode_fallback 0)
       | Ev_take _ => nth_error tr k = Some (Ev_write normal 0)
       | Ev_write offline _ => nth_error tr k = Some (Ev_take (- EAGAIN))
       | Ev_write nw_mode_fallback _ =>
           nth_error tr k = Some (Ev_write offline 0)
       end.
Proof.
  destruct (lte_lc_connect_outcome cfg env n l h) as (err & w' & E & O & _).
  cbv zeta; rewrite E; cbn [fst snd].
  destruct w' as [lk hd tr]; cbn [trace] in *.
  connect_cases O; try absurd_flag; cbn [app];
    (split; [eexists; reflexivity|]);
    intros k ev Hk;
    do 7 (try (destruct k as [|k]; cbn [nth_error] in Hk;
               try discriminate Hk));
    try (destruct k; discriminate Hk);
    injection Hk as <-; cbn; auto.
Qed.

(** X10. A call is bounded: it does at most 7 things to the modem, among
    them at most 2 waits and at most 5 writes; it selects the preferred
    mode once, the fallback mode and the offline state at most once, and
    activates at most twice. *)
Theorem connect_is_bounded cfg env n l h :
  let tr := trace (snd (lte_lc_connect cfg env (S (S n)) l h)) in
  (List.length tr <= 7)%nat
  /\ (List.length (takes tr) <= 2)%nat
  /\ (List.length (writes tr) <= 5)%nat
  /\ sent nw_mode_preferred tr = 1%nat
  /\ (sent nw_mode_fallback tr <= 1)%nat
  /\ (sent offline tr <= 1)%nat
  /\ (sent normal tr <= 2)%nat.
Proof.
  destruct (lte_lc_connect_outcome cfg env n l h) as (err & w' & E & O & _).
  cbv zeta; rewrite E; cbn [fst snd].
  destruct w' as [lk hd tr]; cbn [trace] in *.
  connect_cases O; try absurd_flag; cbn; repeat split; lia.
Qed.

Lemma take_codes_write cfg env c w :
  take_codes cfg (trace w) ->
  take_codes cfg (trace (snd (at_cmd_write env c w))).
Proof.
  intros T e He; unfold at_cmd_write in He; cbn [snd log trace] in He.
  rewrite deliver_trace in He.
  apply in_app_or in He as [He|[He|[]]]; [auto|discriminate He].
Qed.

Lemma take_codes_take cfg env w :
  take_codes cfg (trace w) ->
  take_codes cfg
    (trace (snd (k_sem_take_link env
                   (K_SECONDS (CONFIG_LTE_NETWORK_TIMEOUT cfg)) w))).
Proof.
  intros T e He; revert He; unfold k_sem_take_link.
  pose proof (T e) as Te.
  destruct (0 <? count (link w)).
  - cbn [snd log trace]; rewrite deliver_trace; cbn [set_link trace].
    intros He; apply in_app_or in He as [He|[He|[]]];
      [auto|injection He as <-; auto].
  - destruct (K_SECONDS (CONFIG_LTE_NETWORK_TIMEOUT cfg) =? K_NO_WAIT).
    + cbn [snd log trace]; rewrite deliver_trace.
      intros He; apply in_app_or in He as [He|[He|[]]];
        [auto|injection He as <-; auto].
    + match goal with
      | |- context [pended (link ?d)] => destruct (pended (link d))
      end; cbn [snd log set_link trace]; rewrite deliver_trace;
        cbn [trace];
        intros He; apply in_app_or in He as [He|[He|[]]];
        auto; injection He as <-; auto.
Qed.

(** X11. The return values of a call: 0, [-EIO], [-ETIMEDOUT], or [-EBUSY]
    when the timeout that reaches [k_sem_take] is 0. That timeout is
    [K_SECONDS] of the configured seconds, computed in 32 bits: it is 0
    for a configured 0 and for every multiple of 536870912. A wait with
    timeout 0 that finds no signal returns [-EBUSY] at once, which is not
    a timeout for the loop: the call then never returns [-ETIMEDOUT] and
    never tries the fallback, whether it is enabled or not. *)
Theorem connect_return_codes cfg env n l h :
  let r := lte_lc_connect cfg env (S (S n)) l h in
  let tr := trace (snd r) in
  let timeout := K_SECONDS (CONFIG_LTE_NETWORK_TIMEOUT cfg) in
  (timeout = K_NO_WAIT <-> CONFIG_LTE_NETWORK_TIMEOUT cfg mod 536870912 = 0)
  /\ exists err,
       fst r = Some err
       /\ (err = 0 \/ err = - EIO \/ err = - ETIMEDOUT
           \/ (err = - EBUSY /\ timeout = K_NO_WAIT))
       /\ (timeout = K_NO_WAIT ->
           err <> - ETIMEDOUT /\ sent offline tr = 0%nat
           /\ sent nw_mode_fallback tr = 0%nat)
       /\ (timeout <> K_NO_WAIT -> err <> - EBUSY).
Proof.
  cbv zeta; split; [apply K_SECONDS_no_wait|].
  pose proof (lte_lc_connect_inv cfg env (fun _ tr => take_codes cfg tr)
                (fun c w => take_codes_write cfg env c w)
                (fun w => take_codes_take cfg env w)
                ltac:(intros ? [])
                (S (S n)) l h) as T.
  destruct (lte_lc_connect_outcome cfg env n l h) as (err & w' & E & O & _).
  rewrite E in *; cbn [fst snd] in *.
  destruct w' as [lk hd tr]; cbn [trace] in *.
  exists err; split; [reflexivity|].
  unfold take_codes in T.
  destruct (K_SECONDS (CONFIG_LTE_NETWORK_TIMEOUT cfg) =? K_NO_WAIT) eqn:Z0;
    [apply Z.eqb_eq in Z0|apply Z.eqb_neq in Z0].
  - connect_cases O; try absurd_flag;
      repeat match goal with
             | |- context [Ev_take ?e] =>
                 lazymatch goal with
                 | _ : e = 0 \/ e = - EBUSY |- _ => fail
                 | _ => pose proof (T e ltac:(cbn; tauto))
                 end
             end;
      repeat match goal with
             | H : _ \/ _ |- _ => destruct H; try discriminate
             end;
      subst; cbn;
      (split; [tauto|split; [intros _; repeat split;
                             discriminate|intros Hnz; exfalso; auto]]).
  - connect_cases O; try absurd_flag;
      repeat match goal with
             | |- context [Ev_take ?e] =>
                 lazymatch goal with
                 | _ : e = 0 \/ e = - EAGAIN |- _ => fail
                 | _ => pose proof (T e ltac:(cbn; tauto))
                 end
             end;
      repeat match goal with
             | H : _ \/ _ |- _ => destruct H; try discriminate
             end;
      subst; cbn;
      (split; [tauto|split; [intros Hz; exfalso; auto
                            |intros _; try discriminate]]);
      try contradiction.
Qed.

(** ** A registration report ends the wait *)

Lemma at_handler_registered x s :
  registered x = true -> at_handler x s = k_sem_give s.
Proof.
  unfold registered; intros H.
  destruct (nth_error (urc_params x) 0) as [[| | |id]|] eqn:H0;
    try discriminate H.
  destruct (at_params_int_get (urc_params x) 1) as [v|] eqn:Hv;
    [|discriminate H].
  apply andb_true_iff in H as [Hid Hst].
  apply String.eqb_eq in Hid; subst id.
  unfold at_handler.
  rewrite (string_get_ok _ _ _ _ 16%nat H0) by (simpl; lia).
  rewrite Hv, Hst; reflexivity.
Qed.

Lemma at_handler_unpended x s :
  pended s = false -> link_inv s ->
  pended (at_handler x s) = false
  /\ count s <= count (at_handler x s).
Proof.
  intros P [L C]; unfold at_handler.
  destruct (at_params_string_get (urc_params x) 0 (stack_id x) 16)
    as [[e id] len].
  destruct ((0 <? len)%nat
            && memcmp_eq id (list_ascii_of_string "+CEREG") 6);
    [|split; [exact P|lia]].
  match goal with
  | |- context [if ?b then _ else _] => destruct b
  end; [|split; [exact P|lia]].
  unfold k_sem_give; rewrite P; cbn [pended count].
  split; [reflexivity|].
  destruct (negb (count s =? limit s)); lia.
Qed.

Lemma fold_unpended ns : forall s,
  pended s = false -> link_inv s ->
  let s' := fold_left (fun l n => at_handler n l) ns s in
  pended s' = false /\ count s <= count s' /\ link_inv s'.
Proof.
  induction ns as [|x ns IH]; intros s P I; cbv zeta.
  - cbn [fold_left]; split; [exact P|split; [lia|exact I]].
  - cbn [fold_left].
    destruct (at_handler_unpended x s P I) as [P1 C1].
    pose proof (at_handler_link_inv x s I) as I1.
    destruct (IH _ P1 I1) as (P2 & C2 & I2).
    split; [exact P2|split; [lia|exact I2]].
Qed.

(** Once a registration report is among the lines, the semaphore holds a
    signal when nobody waits, and the waiter is released when one does. *)
Lemma fold_registered ns x s :
  In x ns -> registered x = true -> link_inv s ->
  let s' := fold_left (fun l n => at_handler n l) ns s in
  pended s' = false /\ (pended s = false -> count s' = 1).
Proof.
  intros Hin Hreg I; cbv zeta.
  apply in_split in Hin as (ns1 & ns2 & ->).
  rewrite fold_left_app; cbn [fold_left].
  set (s1 := fold_left (fun l n => at_handler n l) ns1 s).
  assert (I1 : link_inv s1) by (apply fold_at_handler_link_inv, I).
  rewrite (at_handler_registered x s1 Hreg).
  pose proof (k_sem_give_link_inv s1 I1) as I2.
  assert (P2 : pended (k_sem_give s1) = false).
  { unfold k_sem_give; destruct (pended s1); reflexivity. }
  destruct (fold_unpended ns2 _ P2 I2) as (P3 & C3 & I3).
  split; [exact P3|].
  intros P.
  destruct (fold_unpended ns1 s P I) as (P1 & _ & _); fold s1 in P1.
  assert (count (k_sem_give s1) = 1).
  { destruct I1 as [L1 C1]; unfold k_sem_give; rewrite P1; cbn [count].
    destruct (count s1 =? limit s1) eqn:E;
      [apply Z.eqb_eq in E|apply Z.eqb_neq in E]; cbn [negb]; lia. }
  destruct I3 as [_ C4]; lia.
Qed.

Lemma at_cmd_write_on env c w :
  notification_handler w = Some fn_at_handler ->
  at_cmd_write env c w
  = (at_cmd_result env (List.length (trace w)),
     {| link := fold_left (fun l n => at_handler n l)
                  (unsolicited env (List.length (trace w))) (link w);
        notification_handler := Some fn_at_handler;
        trace := trace w
                 ++ [Ev_write c (at_cmd_result env (List.length (trace w)))]
     |}).
Proof.
  intros H; unfold at_cmd_write, deliver, log, set_link; rewrite H.
  cbn [link notification_handler trace]; rewrite ?H; reflexivity.
Qed.

Lemma deliver_on ns w :
  notification_handler w = Some fn_at_handler ->
  deliver ns w
  = set_link (fold_left (fun l n => at_handler n l) ns (link w)) w.
Proof. intros H; unfold deliver; rewrite H; reflexivity. Qed.

Lemma k_sem_take_link_signalled env t w :
  notification_handler w = Some fn_at_handler ->
  (0 < count (link w)
   \/ (t <> K_NO_WAIT
       /\ pended (fold_left (fun l n => at_handler n l)
                    (unsolicited env (List.length (trace w)))
                    {| count := count (link w); limit := limit (link w);
                       pended := true |}) = false)) ->
  exists w',
    k_sem_take_link env t w = (0, w')
    /\ trace w' = trace w ++ [Ev_take 0]
    /\ notification_handler w' = Some fn_at_handler.
Proof.
  intros H Hs; unfold k_sem_take_link.
  destruct (0 <? count (link w)) eqn:C.
  - eexists; split; [reflexivity|].
    cbn [log trace notification_handler].
    rewrite deliver_trace, deliver_handler; cbn [set_link trace
      notification_handler]; auto.
  - apply Z.ltb_ge in C; destruct Hs as [Hs|[Ht Hs]]; [lia|].
    apply Z.eqb_neq in Ht; rewrite Ht.
    rewrite deliver_on by exact H.
    cbn [set_link link notification_handler trace]; rewrite Hs.
    eexists; split; [reflexivity|].
    cbn [log trace notification_handler]; auto.
Qed.

(** X12. A registration report (identifier +CEREG, integer status 1 or 5)
    gives the semaphore, and it ends the first wait of a call: when it
    arrives while the mode selection or the activation command is written,
    the signal is pending when the wait starts, whatever the timeout is;
    when it arrives during the wait itself, the wait must block, that is,
    the timeout that reaches [k_sem_take] ([K_SECONDS] of the configured
    seconds, in 32 bits) must not be 0. With both writes succeeding the
    call then returns 0 after exactly these three events, in any
    configuration of the fallback. *)
Theorem registration_ends_wait cfg env n l h i x :
  (i <= 2)%nat -> In x (unsolicited env i) -> registered x = true ->
  at_cmd_result env 0 = 0 -> at_cmd_result env 1 = 0 ->
  (i = 2%nat -> K_SECONDS (CONFIG_LTE_NETWORK_TIMEOUT cfg) <> K_NO_WAIT) ->
  let r := lte_lc_connect cfg env (S (S n)) l h in
  (forall s, at_handler x s = k_sem_give s)
  /\ fst r = Some 0
  /\ trace (snd r) = [Ev_write nw_mode_preferred 0; Ev_write normal 0;
                      Ev_take 0].
Proof.
  intros Hi Hin Hreg R0 R1 HT; cbv zeta.
  split; [intros s; apply at_handler_registered, Hreg|].
  unfold lte_lc_connect, w_lte_lc_connect, bind, k_sem_init_link,
    at_cmd_set_notification_handler, modem_at_entry.
  cbn [set_link link notification_handler trace connect_loop].
  unfold bind, connect_round, bind.
  rewrite at_cmd_write_on by reflexivity.
  cbn [trace link List.length app]; rewrite R0; cbn [Z.eqb negb].
  rewrite at_cmd_write_on by reflexivity.
  cbn [trace link List.length app]; rewrite R1; cbn [Z.eqb negb].
  set (s0 := k_sem_init 0 1).
  set (s1 := fold_left (fun l n => at_handler n l) (unsolicited env 0) s0).
  set (s2 := fold_left (fun l n => at_handler n l) (unsolicited env 1) s1).
  assert (I0 : link_inv s0) by (split; cbn; lia).
  destruct (fold_unpended (unsolicited env 0) s0 eq_refl I0)
    as (P1 & C1 & I1); fold s1 in P1, C1, I1.
  destruct (fold_unpended (unsolicited env 1) s1 P1 I1)
    as (P2 & C2 & I2); fold s2 in P2, C2, I2.
  match goal with
  | |- context [k_sem_take_link env ?t ?w] =>
      destruct (k_sem_take_link_signalled env t w eq_refl) as (w' & E & T & H)
  end.
  { cbn [link trace List.length].
    assert (i = 0 \/ i = 1 \/ i = 2)%nat as [-> | [-> | ->]] by lia.
    - left.
      pose proof (proj2 (fold_registered _ x s0 Hin Hreg I0) eq_refl) as C.
      fold s1 in C; lia.
    - left.
      pose proof (proj2 (fold_registered _ x s1 Hin Hreg I1) P1) as C.
      fold s2 in C; lia.
    - right; split; [apply HT; reflexivity|].
      apply (fold_registered (unsolicited env 2) x); [exact Hin|exact Hreg|].
      exact I2. }
  rewrite E; cbn [Z.eqb Z.opp EAGAIN ret fst snd].
  cbn [trace] in T; rewrite T; split; reflexivity.
Qed.

Lemma registration_ends_wait_witness :
  fst (lte_lc_connect cfg_fallback
         {| at_cmd_result := all_ok;
            unsolicited := fun i =>
              [urc [AT_PARAM_STRING "+CEREG"; AT_PARAM_NUM_SHORT 2;
                    AT_PARAM_STRING "76C1"];
               urc [AT_PARAM_STRING "+CEREG"; AT_PARAM_NUM_SHORT 5;
                    AT_PARAM_STRING "76C1";
                    AT_PARAM_STRING "0102DA04"]] |}
         2 (k_sem_init 0 1) None) = Some 0
  /\ fst (lte_lc_connect cfg_wrapped_timeout
            {| at_cmd_result := all_ok;
               unsolicited := fun i =>
                 if (i =? 1)%nat
                 then [urc [AT_PARAM_STRING "+CEREG"; AT_PARAM_NUM_INT 1]]
                 else [] |}
            2 (k_sem_init 0 1) None) = Some 0.
Proof.
  split.
  - refine (proj1 (proj2 (registration_ends_wait cfg_fallback
                            {| at_cmd_result := all_ok;
                               unsolicited := fun i =>
                                 [urc [AT_PARAM_STRING "+CEREG";
                                       AT_PARAM_NUM_SHORT 2;
                                       AT_PARAM_STRING "76C1"];
                                  urc [AT_PARAM_STRING "+CEREG";
                                       AT_PARAM_NUM_SHORT 5;
                                       AT_PARAM_STRING "76C1";
                                       AT_PARAM_STRING "0102DA04"]] |}
                            0 (k_sem_init 0 1) None 2%nat
                            (urc [AT_PARAM_STRING "+CEREG";
                                  AT_PARAM_NUM_SHORT 5;
                                  AT_PARAM_STRING "76C1";
                                  AT_PARAM_STRING "0102DA04"])
                            (le_n 2) _ eq_refl eq_refl eq_refl _))).
    + right; left; reflexivity.
    + intros _; vm_compute; discriminate.
  - refine (proj1 (proj2 (registration_ends_wait cfg_wrapped_timeout
                            {| at_cmd_result := all_ok;
                               unsolicited := fun i =>
                                 if (i =? 1)%nat
                                 then [urc [AT_PARAM_STRING "+CEREG";
                                            AT_PARAM_NUM_INT 1]]
                                 else [] |}
                            0 (k_sem_init 0 1) None 1%nat
                            (urc [AT_PARAM_STRING "+CEREG";
                                  AT_PARAM_NUM_INT 1])
                            (le_S _ _ (le_n 1)) _ eq_refl eq_refl
                            eq_refl _))).
    + left; reflexivity.
    + intros H; discriminate H.
Defined.

(** ** w_lte_lc_init and w_lte_lc_init_and_connect *)

Lemma w_lte_lc_init_writes ic env :
  w_lte_lc_init ic env = init_writes env (init_cmds ic) [].
Proof. destruct ic as [[] [] [] [] [] [] []]; reflexivity. Qed.

(** The statements for a list of commands stop at the first write that
    fails; the return codes are those of the environment, by position. *)
Lemma init_writes_run env cs : forall lg,
  exists done,
    snd (init_writes env cs lg) = lg ++ done
    /\ (forall j c x, nth_error done j = Some (c, x) ->
          x = at_cmd_result env (List.length lg + j))
    /\ ((fst (init_writes env cs lg) = 0
         /\ map fst done = cs
         /\ Forall (fun p => snd p = 0) done)
        \/ (fst (init_writes env cs lg) = - EIO
            /\ exists pre c x post,
                 done = pre ++ [(c, x)] /\ x <> 0
                 /\ Forall (fun p => snd p = 0) pre
                 /\ cs = map fst pre ++ c :: post)).
Proof.
  induction cs as [|c cs IH]; intros lg.
  - exists []; cbn; rewrite app_nil_r; split; [reflexivity|].
    split; [intros [|j] ? ? H; discriminate H|left; auto].
  - cbn [init_writes]; unfold init_write.
    set (r := at_cmd_result env (List.length lg)).
    destruct (r =? 0) eqn:E; cbn [negb].
    + apply Z.eqb_eq in E.
      destruct (IH (lg ++ [(c, r)])) as (done & S & P & O).
      exists ((c, r) :: done).
      split; [rewrite S, <- app_assoc; reflexivity|].
      split.
      * intros [|j] c' x H; cbn in H.
        -- injection H as <- <-; unfold r; f_equal; lia.
        -- rewrite (P j c' x H), length_app; cbn; f_equal; lia.
      * destruct O as [(F & M & A)|(F & pre & c' & x & post & D & X & A & C)].
        -- left; split; [exact F|]; split; [cbn; congruence|].
           constructor; [exact E|exact A].
        -- right; split; [exact F|].
           exists ((c, r) :: pre), c', x, post.
           split; [cbn; congruence|]; split; [exact X|].
           split; [constructor; [exact E|exact A]|cbn; congruence].
    + apply Z.eqb_neq in E.
      exists [(c, r)]; cbn [fst snd]; split; [reflexivity|].
      split.
      * intros [|[|j]] c' x H; cbn in H; try discriminate H.
        injection H as <- <-; unfold r; f_equal; lia.
      * right; split; [reflexivity|].
        exists [], c, r, cs; repeat split; auto.
Qed.

(** X13. The set-up writes the commands that the configuration compiles
    in, in the order of the source, and stops at the first write that
    fails: it returns 0 when all of them were written with return code 0,
    and [-EIO] otherwise, the failed command being the last one written.
    The subscription to the registration reports is part of every
    configuration. *)
Theorem w_lte_lc_init_stops_at_failure ic env :
  let ret := fst (w_lte_lc_init ic env) in
  let lg := snd (w_lte_lc_init ic env) in
  In cereg_5_subscribe (init_cmds ic)
  /\ (forall j c x, nth_error lg j = Some (c, x) ->
        x = at_cmd_result env j)
  /\ ((ret = 0 /\ map fst lg = init_cmds ic
       /\ Forall (fun p => snd p = 0) lg)
      \/ (ret = - EIO
          /\ exists pre c x post,
               lg = pre ++ [(c, x)] /\ x <> 0
               /\ Forall (fun p => snd p = 0) pre
               /\ init_cmds ic = map fst pre ++ c :: post)).
Proof.
  cbv zeta; split.
  - unfold init_cmds; apply in_or_app; right; apply in_or_app; right.
    left; reflexivity.
  - rewrite w_lte_lc_init_writes.
    destruct (init_writes_run env (init_cmds ic) []) as (done & S & P & O).
    cbn [app] in S; rewrite S; split; [exact P|exact O].
Qed.

(** X14. The connection is tried only after a set-up that returned 0.
    When a command of the set-up fails, the call returns [-EIO] and writes
    nothing after the failed command: no mode selection reaches the modem.
    Otherwise all commands of the set-up were written with return code 0,
    the result is that of the connection (which sees the environment from
    the call after the last command of the set-up on), its first command
    is the preferred mode selection, and the handler is unregistered at
    the end. *)
Theorem init_and_connect_in_sequence ic cfg env n l h :
  let '(r, lg, m) :=
    lte_lc_init_and_connect ic cfg env (S (S n)) l h in
  match m with
  | None =>
      r = Some (- EIO)
      /\ exists pre c x post,
           lg = pre ++ [(c, x)] /\ x <> 0
           /\ init_cmds ic = map fst pre ++ c :: post
  | Some w =>
      map fst lg = init_cmds ic
      /\ Forall (fun p => snd p = 0) lg
      /\ (r, w) = lte_lc_connect cfg
                    (shift_env (List.length (init_cmds ic)) env)
                    (S (S n)) l h
      /\ (exists err, r = Some err)
      /\ notification_handler w = None
      /\ exists p, nth_error (trace w) 0
                   = Some (Ev_write nw_mode_preferred p)
  end.
Proof.
  unfold lte_lc_init_and_connect, w_lte_lc_init_and_connect.
  rewrite w_lte_lc_init_writes.
  destruct (init_writes_run env (init_cmds ic) []) as (done & S & P & O).
  destruct (init_writes env (init_cmds ic) []) as [ret lg];
    cbn [fst snd app] in *; subst lg.
  destruct O as [(F & M & A)|(F & pre & c & x & post & D & X & A & C)].
  - subst ret; cbn [Z.eqb negb].
    assert (L : List.length done = List.length (init_cmds ic))
      by (rewrite <- M, length_map; reflexivity).
    rewrite L.
    destruct (lte_lc_connect_outcome cfg
                (shift_env (List.length (init_cmds ic)) env) n l h)
      as (err & w' & E & O & H & _).
    rewrite E.
    split; [exact M|]. split; [exact A|]. split; [reflexivity|].
    split; [exists err; reflexivity|]. split; [exact H|].
    destruct w' as [lk hd tr]; cbn [trace] in *.
    connect_cases O; eexists; reflexivity.
  - subst ret; cbn [Z.eqb Z.opp EIO negb].
    split; [reflexivity|].
    exists pre, c, x, post; auto.
Qed.
